(** * container_swift: the SWIFT-code front end and the bulk-upload pipeline

    A shallow embedding of the JavaScript sources of the repository
    (the React pages and the two axios service modules) together with the
    properties the design document states about them.

    Conventions of the embedding:
    - a JavaScript string is a [string]; every [ascii] stands for one code
      unit, so [String.length] is the [.length] of the source (the strings
      covered are those whose code units are below 256);
    - a JavaScript object used as a dictionary ([errors] in [validateForm])
      is a [gmap string string];
    - a JavaScript number is an IEEE-754 binary64 value ([spec_float] at
      precision 53), integers of the JSON payload are injected exactly;
    - an [async] function that awaits axios is a function of the answers
      of the server, returning a completion ([Return] or [Throw]). *)

From Stdlib Require Import ZArith String Ascii Bool List Lia.
From Stdlib Require Import SpecFloat.
From stdpp Require Import base option gmap strings list pretty relations sorting.

Local Open Scope string_scope.
Set Warnings "-register-all".

(** ** JavaScript strings *)

Module JsString.

(** [!s] for a string: only the empty string is falsy. *)
Definition falsy (s : string) : bool :=
  match s with EmptyString => true | String _ _ => false end.

(** [s.endsWith(suffix)]. *)
Definition endsWith (s suffix : string) : bool :=
  let n := String.length s in
  let k := String.length suffix in
  (k <=? n)%nat && String.eqb (substring (n - k) k s) suffix.

(** [[a, b, ...].includes(n)] on numbers. *)
Definition includes (l : list nat) (n : nat) : bool :=
  existsb (Nat.eqb n) l.

(** Upper-casing of text whose code units are all ASCII; the pages are
    parametric in [toUpperCase], this is the instance used on ASCII input. *)
Definition upper_ascii (c : ascii) : ascii :=
  let n := nat_of_ascii c in
  if ((97 <=? n) && (n <=? 122))%nat then ascii_of_nat (n - 32) else c.

Fixpoint toUpperCase_ascii (s : string) : string :=
  match s with
  | EmptyString => EmptyString
  | String c s' => String (upper_ascii c) (toUpperCase_ascii s')
  end.

End JsString.

(** ** Regular expressions

    The two literals of [CreatePage.js] are anchored at both ends and use
    only character classes, bounded repetition, an optional group and [+].
    Matching is the backtracking matcher with continuations of the
    ECMAScript specification, restricted to these constructs. *)

Module RegExp.

Inductive regex : Type :=
| Class (ranges : list (ascii * ascii))   (* [a-bc-d...] *)
| Times (n : nat) (r : regex)             (* r{n} *)
| Optional (r : regex)                    (* (r)? *)
| Plus (r : regex)                        (* r+ *)
| Concat (r1 r2 : regex).                 (* r1r2 *)

Definition in_range (c : ascii) (rg : ascii * ascii) : bool :=
  ((nat_of_ascii (fst rg) <=? nat_of_ascii c)
   && (nat_of_ascii c <=? nat_of_ascii (snd rg)))%nat.

Definition in_class (ranges : list (ascii * ascii)) (c : ascii) : bool :=
  existsb (in_range c) ranges.

(** [loop step fuel k s]: zero or more rounds of [step], then [k]. *)
Fixpoint loop (step : (string -> bool) -> string -> bool) (fuel : nat)
         (k : string -> bool) (s : string) : bool :=
  k s ||
  match fuel with
  | O => false
  | S fuel' => step (loop step fuel' k) s
  end.

Fixpoint rmatch (r : regex) (k : string -> bool) (s : string) {struct r} : bool :=
  match r with
  | Class ranges =>
      match s with
      | EmptyString => false
      | String c s' => in_class ranges c && k s'
      end
  | Times n r' => Nat.iter n (fun k' => rmatch r' k') k s
  | Optional r' => rmatch r' k s || k s
  | Plus r' => rmatch r' (loop (fun k' => rmatch r' k') (String.length s) k) s
  | Concat r1 r2 => rmatch r1 (rmatch r2 k) s
  end.

(** [$] without the [m] flag: end of input only. *)
Definition at_end (s : string) : bool := JsString.falsy s.

(** [/^r$/.test(s)]: with [^] the only candidate start is index 0. *)
Definition test (r : regex) (s : string) : bool := rmatch r at_end s.

Definition upper : list (ascii * ascii) := [("A"%char, "Z"%char)].
Definition upper_or_digit : list (ascii * ascii) :=
  [("A"%char, "Z"%char); ("0"%char, "9"%char)].

End RegExp.

(** ** Asynchronous code: requests, completions, console

    An [async] function of the services is a computation that may issue
    HTTP requests through axios, write to the console, return or throw.
    [await] is sequencing; a rejected promise is a [Throw]. *)

Module Js.

Inductive Json : Type :=
| JNull
| JBool (b : bool)
| JNum (n : Z)
| JStr (s : string)
| JArr (items : list Json)
| JObj (fields : list (string * Json)).

(** Conversion of a JSON value to a boolean in a condition. *)
Definition truthy (v : Json) : bool :=
  match v with
  | JNull => false
  | JBool b => b
  | JNum n => negb (n =? 0)%Z
  | JStr s => negb (JsString.falsy s)
  | JArr _ | JObj _ => true
  end.

(** [v.key], [JNull] standing for [undefined] as well. *)
Fixpoint field (key : string) (fields : list (string * Json)) : Json :=
  match fields with
  | [] => JNull
  | (k, v) :: rest => if String.eqb k key then v else field key rest
  end.

Definition get_field (v : Json) (key : string) : Json :=
  match v with JObj fields => field key fields | _ => JNull end.

Record Response : Type := mkResponse { status : Z; data : Json }.

(** The value a rejected axios promise carries. *)
Record Error : Type := mkError { message : string; response : option Response }.

Inductive Method : Type := GET | POST | DELETE.

(** A request: the path, the query parameters in order, and the body. *)
Record Request : Type := mkRequest {
  method : Method;
  path : string;
  query : list (string * string);
  body : Json
}.

Inductive Completion (A : Type) : Type :=
| Return (a : A)
| Throw (e : Error).
Arguments Return {A} a.
Arguments Throw {A} e.

Inductive Effect : Type :=
| Http (r : Request)
| ConsoleLog (line : string)
| ConsoleError (line : string)
| Navigate (to : string).

(** What the network answers to each request. *)
Definition Server : Type := Request -> Completion Response.

Definition Async (A : Type) : Type := Server -> list Effect * Completion A.

Definition ret {A} (a : A) : Async A := fun _ => ([], Return a).

Definition throw {A} (e : Error) : Async A := fun _ => ([], Throw e).

Definition bind {A B} (m : Async A) (f : A -> Async B) : Async B :=
  fun srv =>
    match m srv with
    | (t, Return a) => let '(t', c) := f a srv in ((t ++ t')%list, c)
    | (t, Throw e) => (t, Throw e)
    end.

(** [try { m } catch (e) { handler e }] *)
Definition try_catch {A} (m : Async A) (handler : Error -> Async A) : Async A :=
  fun srv =>
    match m srv with
    | (t, Return a) => (t, Return a)
    | (t, Throw e) => let '(t', c) := handler e srv in ((t ++ t')%list, c)
    end.

Definition request (r : Request) : Async Response :=
  fun srv => ([Http r], srv r).

Definition effect (e : Effect) : Async unit := fun _ => ([e], Return tt).

Definition run {A} (m : Async A) (srv : Server) : Completion A := snd (m srv).
Definition trace {A} (m : Async A) (srv : Server) : list Effect := fst (m srv).

#[export] Instance async_ret : MRet Async := @ret.
#[export] Instance async_bind : MBind Async := fun A B f m => bind m f.

End Js.

(** ** [services/apiService.js] *)

Module ApiService.
Import Js.

Record CountParams : Type := mkCountParams {
  country : option string;          (* [undefined] is [None] *)
  isHeadquarter : option bool
}.

Definition bool_toString (b : bool) : string := if b then "true" else "false".

(** The [URLSearchParams] that [fetchSwiftCodesCount] builds. *)
Definition queryParams (params : CountParams) : list (string * string) :=
  let q := [] in
  let q :=
    match country params with
    | Some c => if JsString.falsy c then q else (q ++ [("country", c)])%list
    | None => q
    end in
  let q :=
    match isHeadquarter params with
    | Some b => (q ++ [("is_headquarter", bool_toString b)])%list
    | None => q
    end in
  q.

Definition apiClient_get (p : string) (q : list (string * string)) : Async Response :=
  request (mkRequest GET p q JNull).

Definition apiClient_post (p : string) (b : Json) : Async Response :=
  request (mkRequest POST p [] b).

(** [Array.isArray(v) ? v.length : 0] *)
Definition array_length_or_zero (v : Json) : Z :=
  match v with JArr items => Z.of_nat (length items) | _ => 0%Z end.

Definition fetchSwiftCodesCount (params : CountParams) : Async Json :=
  try_catch
    (let q := queryParams params in
     try_catch
       (response ← apiClient_get "/api/v1/swift-code/count" q;
        ret (data response))
       (fun _ =>
          effect (ConsoleLog "Count endpoint not available, estimating count...");;
          response ← apiClient_get "/api/v1/swift-code/"
                        (q ++ [("limit", "1000"); ("skip", "0")])%list;
          let count := array_length_or_zero (data response) in
          ret (JObj [("count", JNum (if (count <? 1000)%Z then count else 1000%Z))])))
    (fun error =>
       effect (ConsoleError "Error fetching SWIFT codes count:");;
       throw error).

(** The two requests of [fetchSwiftCodesCount]. *)
Definition count_request (params : CountParams) : Request :=
  mkRequest GET "/api/v1/swift-code/count" (queryParams params) JNull.

Definition listing_request (params : CountParams) : Request :=
  mkRequest GET "/api/v1/swift-code/"
    (queryParams params ++ [("limit", "1000"); ("skip", "0")])%list JNull.

Definition createSwiftCode (swiftCodeData : Json) : Async Json :=
  try_catch
    (response ← apiClient_post "/api/v1/swift-code/" swiftCodeData;
     ret (data response))
    (fun error =>
       effect (ConsoleError "Error creating SWIFT code:");;
       throw error).

End ApiService.

(** ** [services/uploadApiService.js] *)

Module UploadApiService.
Import Js.

Definition uploadApiClient_get (p : string) : Async Response :=
  request (mkRequest GET p [] JNull).

Definition health_request : Request := mkRequest GET "/health" [] JNull.

Definition checkUploadApiHealth : Async bool :=
  try_catch
    (response ← uploadApiClient_get "/health";
     ret (status response =? 200)%Z)
    (fun _ =>
       effect (ConsoleError "Error checking upload API health:");;
       ret false).

End UploadApiService.

(** ** [pages/CreatePage.js] *)

Module CreatePage.
Import JsString RegExp.

Record FormData : Type := mkFormData {
  swiftCode : string;
  address : string;
  countryISO2 : string;
  countryName : string;
  isHeadquarter : bool
}.

(** [/^[A-Z]{4}[A-Z]{2}[A-Z0-9]{2}([A-Z0-9]{3})?$/] *)
Definition pattern : regex :=
  Concat (Times 4 (Class upper))
    (Concat (Times 2 (Class upper))
       (Concat (Times 2 (Class upper_or_digit))
          (Optional (Times 3 (Class upper_or_digit))))).

(** [/^[A-Z]+$/] *)
Definition letters_only : regex := Plus (Class upper).

Definition validateForm (formData : FormData) : gmap string string :=
  let errors : gmap string string := ∅ in
  let errors :=
    if falsy (swiftCode formData) then
      <["swiftCode" := "SWIFT code is required"]> errors
    else if negb (includes [8; 11]%nat (String.length (swiftCode formData))) then
      <["swiftCode" := "SWIFT code must be either 8 or 11 characters long"]> errors
    else if negb (test pattern (swiftCode formData)) then
      <["swiftCode" := "Invalid SWIFT code format"]> errors
    else errors in
  let errors :=
    if (String.length (swiftCode formData) =? 11)%nat
       && endsWith (swiftCode formData) "XXX"
       && negb (isHeadquarter formData) then
      <["isHeadquarter" := "SWIFT codes ending with XXX must be headquarters"]> errors
    else if isHeadquarter formData
            && (negb (endsWith (swiftCode formData) "XXX")
                || negb (String.length (swiftCode formData) =? 11)%nat) then
      <["isHeadquarter" := "Only SWIFT codes ending with XXX can be headquarters"]> errors
    else errors in
  let errors :=
    if falsy (address formData) then
      <["address" := "Address is required"]> errors
    else errors in
  let errors :=
    if falsy (countryISO2 formData) then
      <["countryISO2" := "Country code is required"]> errors
    else if negb (String.length (countryISO2 formData) =? 2)%nat then
      <["countryISO2" := "Country code must be exactly 2 characters"]> errors
    else if negb (test letters_only (countryISO2 formData)) then
      <["countryISO2" := "Country code must contain only letters"]> errors
    else errors in
  let errors :=
    if falsy (countryName formData) then
      <["countryName" := "Country name is required"]> errors
    else errors in
  errors.

(** The JSON body axios sends for [formData]. *)
Definition to_json (formData : FormData) : Js.Json :=
  Js.JObj [("swiftCode", Js.JStr (swiftCode formData));
           ("address", Js.JStr (address formData));
           ("countryISO2", Js.JStr (countryISO2 formData));
           ("countryName", Js.JStr (countryName formData));
           ("isHeadquarter", Js.JBool (isHeadquarter formData))].

(** The component state: the four [useState] cells. A [null] entry of
    [validationErrors] is [None]. *)
Record State : Type := mkState {
  formData : FormData;
  loading : bool;
  error : option Js.Json;
  validationErrors : gmap string (option string)
}.

Definition setFormData (fd : FormData) (st : State) : State :=
  mkState fd (loading st) (error st) (validationErrors st).
Definition setLoading (b : bool) (st : State) : State :=
  mkState (formData st) b (error st) (validationErrors st).
Definition setError (e : option Js.Json) (st : State) : State :=
  mkState (formData st) (loading st) e (validationErrors st).
Definition setValidationErrors (v : gmap string (option string)) (st : State) : State :=
  mkState (formData st) (loading st) (error st) v.

(** Truthiness of [validationErrors.swiftCode]. *)
Definition has_error (key : string) (st : State) : bool :=
  match validationErrors st !! key with
  | Some (Some msg) => negb (falsy msg)
  | _ => false
  end.

Section Handlers.
(** [String.prototype.toUpperCase]. *)
Variable toUpperCase : string -> string.

(** [handleSwiftCodeChange], on the text [value] of the event target. *)
Definition handleSwiftCodeChange (value : string) (st : State) : State :=
  let swiftCode' := toUpperCase value in
  let st :=
    setFormData
      (mkFormData swiftCode' (address (formData st)) (countryISO2 (formData st))
         (countryName (formData st))
         ((String.length swiftCode' =? 11)%nat && endsWith swiftCode' "XXX"))
      st in
  if has_error "swiftCode" st then
    setValidationErrors (<["swiftCode" := None]> (validationErrors st)) st
  else st.
End Handlers.

(** [err.response && err.response.data && err.response.data.detail] *)
Definition error_detail (err : Js.Error) : Js.Json :=
  match Js.response err with
  | None => Js.JNull
  | Some r =>
      if Js.truthy (Js.data r) then Js.get_field (Js.data r) "detail" else Js.data r
  end.

Import Js.

Definition handleSubmit (st : State) : Async State :=
  let errors := validateForm (formData st) in
  if (0 <? size errors)%nat then
    ret (setValidationErrors (Some <$> errors) st)
  else
    try_catch
      (let st := setError None (setLoading true st) in
       ApiService.createSwiftCode (to_json (formData st));;
       effect (Navigate "/");;
       ret (setLoading false st))
      (fun err =>
         let st := setError None (setLoading true st) in
         let detail := error_detail err in
         let st :=
           if truthy detail then setError (Some detail) st
           else setError
                  (Some (JStr "Failed to create SWIFT code. Please try again later."))
                  st in
         effect (ConsoleError (message err));;
         ret (setLoading false st)).

End CreatePage.

(** ** JavaScript numbers

    IEEE-754 binary64 with round-to-nearest-even, as the Standard Library
    specifies it ([SpecFloat] at precision 53 and maximal exponent 1024). *)

Module Number.

Definition prec : Z := 53.
Definition emax : Z := 1024.

Definition number : Type := spec_float.

(** The double nearest to an integer (the integer itself below 2^53). *)
Definition of_Z (z : Z) : number := binary_normalize prec emax z 0 false.

Definition add (x y : number) : number := SFadd prec emax x y.
Definition mul (x y : number) : number := SFmul prec emax x y.
Definition div (x y : number) : number := SFdiv prec emax x y.

(** [Math.floor]: a finite value [m * 2^e] with [e < 0] is rounded
    towards minus infinity, every other value is returned as it is. *)
Definition floor (x : number) : number :=
  match x with
  | S754_finite s m e =>
      if (0 <=? e)%Z then x
      else binary_normalize prec emax
             (Z.shiftr (cond_Zopp s (Zpos m)) (Z.opp e)) 0 s
  | _ => x
  end.

(** The integer a finite integral double denotes. *)
Definition to_Z (x : number) : option Z :=
  match x with
  | S754_zero _ => Some 0%Z
  | S754_finite s m e =>
      let z := cond_Zopp s (Zpos m) in
      if (0 <=? e)%Z then Some (Z.shiftl z e)
      else if (Z.shiftl (Z.shiftr z (Z.opp e)) (Z.opp e) =? z)%Z
           then Some (Z.shiftr z (Z.opp e))
           else None
  | _ => None
  end.

End Number.

(** ** [components/UploadStatus.js] *)

Module UploadStatus.
Import Number.

(** The JSON snapshot of a job that [getUploadStatus] returns; the
    counters are the integers of the payload. *)
Record JobSnapshot : Type := mkJobSnapshot {
  id : string;
  filename : string;
  status : string;
  total_records : Z;
  processed : Z;
  skipped : Z;
  failed : Z;
  message : string
}.

(** [calculateProgress], on the [status] cell ([None] before the first
    answer arrives). *)
Definition calculateProgress (st : option JobSnapshot) : number :=
  match st with
  | None => of_Z 0
  | Some status' =>
      if String.eqb (status status') "pending" then of_Z 0
      else if String.eqb (status status') "completed" then of_Z 100
      else if String.eqb (status status') "failed" then of_Z 100
      else if (total_records status' =? 0)%Z then of_Z 50
      else
        let processed' :=
          add (add (of_Z (processed status')) (of_Z (failed status')))
              (of_Z (skipped status')) in
        floor (mul (div processed' (of_Z (total_records status'))) (of_Z 100))
  end.

(** The percentage in exact arithmetic: floor (100 * done / total). *)
Definition exact_percentage (st : JobSnapshot) : Z :=
  (100 * (processed st + failed st + skipped st) / total_records st)%Z.

(** A job in progress with [done] rows handled out of [total]. *)
Definition in_progress (done total : Z) : JobSnapshot :=
  mkJobSnapshot "" "" "processing" total done 0 0 "".

(** The progress shown is the exact percentage or one below it, and lies
    between 0 and 100. *)
Definition progress_close (done total : Z) : bool :=
  match to_Z (calculateProgress (Some (in_progress done total))) with
  | Some shown =>
      let exact := exact_percentage (in_progress done total) in
      ((shown =? exact) || (shown =? exact - 1))%Z
      && (0 <=? shown)%Z && (shown <=? 100)%Z
  | None => false
  end.

(** [progress_close] for every [done] up to [total], for every [total]
    from 1 to [n]. *)
Definition progress_close_upto (n : nat) : bool :=
  forallb
    (fun total =>
       forallb (fun done => progress_close (Z.of_nat done) (Z.of_nat total))
               (seq 0 (S total)))
    (seq 1 n).

End UploadStatus.

(** ** The upload service (design document, sections 3 and 4)

    The worker, the registry client and the job record live in the
    [upload-service] directory of the repository, which is not among the
    front-end sources; they are modelled here from the design document. *)

Module UploadService.

(** Modelled from the spec: the four states of a job (section 3). *)
Inductive JobStatus : Type := Pending | Processing | Completed | Failed.

(** Modelled from the spec: one entry of [error_details] (section 3). *)
Record ErrorDetail : Type := mkErrorDetail {
  record_identifier : string;
  reason : string
}.

(** Modelled from the spec: the UploadJob record of section 3 (the
    job store of the upload service is not in the sources). *)
Record UploadJob : Type := mkUploadJob {
  id : string;
  filename : string;
  status : JobStatus;
  total_records : nat;
  processed : nat;
  skipped : nat;
  failed : nat;
  error_details : list ErrorDetail;
  message : string;
  created_at : nat
}.

(** Modelled from the spec: the record the validator hands to the
    registry client (section 3). *)
Record NormalizedRecord : Type := mkNormalizedRecord {
  identifier : string;
  address : string;
  country_iso2 : string;
  country_name : string;
  headquarters : bool
}.

(** Modelled from the spec: the tagged result of the validator (section 3). *)
Inductive ValidationOutcome : Type :=
| Accepted (record : NormalizedRecord)
| Rejected (why : string).

(** Modelled from the spec: what one call of the registry client reports
    (section 4.2). *)
Inductive Outcome : Type :=
| Created
| DuplicateRejected
| TransientFailure
| PermanentFailure.

(** Modelled from the spec: a raw row, column name to text (section 4.1). *)
Abbreviation RawRow := (gmap string string).

(** Modelled from the spec: the job a fresh upload gets (section 4.3,
    [create], initial status pending, counters at zero). *)
Definition create (job_id name : string) (now : nat) : UploadJob :=
  mkUploadJob job_id name Pending 0 0 0 0 [] "upload accepted" now.

(** Modelled from the spec: the mutations of the job store (section 4.3,
    [update]): status with message, total, and the three counters. *)
Definition set_status (s : JobStatus) (msg : string) (j : UploadJob) : UploadJob :=
  mkUploadJob (id j) (filename j) s (total_records j) (processed j) (skipped j)
    (failed j) (error_details j) msg (created_at j).

Definition set_total (n : nat) (j : UploadJob) : UploadJob :=
  mkUploadJob (id j) (filename j) (status j) n (processed j) (skipped j)
    (failed j) (error_details j) (message j) (created_at j).

Definition incr_processed (j : UploadJob) : UploadJob :=
  mkUploadJob (id j) (filename j) (status j) (total_records j) (S (processed j))
    (skipped j) (failed j) (error_details j) (message j) (created_at j).

Definition incr_skipped (j : UploadJob) : UploadJob :=
  mkUploadJob (id j) (filename j) (status j) (total_records j) (processed j)
    (S (skipped j)) (failed j) (error_details j) (message j) (created_at j).

(** Modelled from the spec: a failed row, the counter and the append-only
    error list move together (section 4.4). *)
Definition incr_failed (who why : string) (j : UploadJob) : UploadJob :=
  mkUploadJob (id j) (filename j) (status j) (total_records j) (processed j)
    (skipped j) (S (failed j)) (error_details j ++ [mkErrorDetail who why])%list
    (message j) (created_at j).

Definition handled (j : UploadJob) : nat := processed j + skipped j + failed j.

(** The counters of [j'] are those of [j] or above. *)
Definition counters_le (j j' : UploadJob) : Prop :=
  (processed j ≤ processed j')%nat ∧ (skipped j ≤ skipped j')%nat
  ∧ (failed j ≤ failed j')%nat.

Definition terminal (s : JobStatus) : bool :=
  match s with Completed | Failed => true | _ => false end.

Definition registry_unavailable : string := "registry unavailable".

Definition summary (j : UploadJob) : string :=
  "processed " +:+ pretty (processed j) +:+ ", skipped " +:+ pretty (skipped j)
    +:+ ", failed " +:+ pretty (failed j).

(** Modelled from the spec: where the worker of one job stands; the
    rows still to drain and the count of consecutive unreachable records
    are the worker's own (section 4.4). *)
Inductive Phase : Type :=
| NotStarted
| Parsing
| Draining (rows : list RawRow) (consecutive : nat)
| Stopped.

Section Worker.
(** Modelled from the spec: the state of the registry behind the client,
    and one attempt to create a record in it (section 4.2). *)
Variable Registry : Type.
Variable attempt : NormalizedRecord -> Registry -> Outcome * Registry.
(** Modelled from the spec: the record validator of section 4.1, and how
    a row is named in the error list. *)
Variable validate : RawRow -> ValidationOutcome.
Variable row_identifier : RawRow -> string.
(** Modelled from the spec: the retries after the first attempt, and the
    consecutive-failure threshold (section 4.2). *)
Variable retries : nat.
Variable threshold : nat.

(** Modelled from the spec: [submit] of section 4.2, a transient
    failure is tried again until the bound is used up. *)
Fixpoint submit (n : nat) (record : NormalizedRecord) (reg : Registry)
  : Outcome * Registry :=
  match attempt record reg with
  | (TransientFailure, reg') =>
      match n with
      | O => (TransientFailure, reg')
      | S n' => submit n' record reg'
      end
  | answer => answer
  end.

(** Modelled from the spec: one background unit of work, with the file it
    drains and the registry it talks to (sections 4.4 and 5). *)
Record Worker : Type := mkWorker {
  job : UploadJob;
  source : option (list RawRow);   (* [None]: the file cannot be read *)
  phase : Phase;
  registry : Registry
}.

(** Modelled from the spec: the per-row algorithm of section 4.4. *)
Definition process_row (row : RawRow) (rest : list RawRow) (consecutive : nat)
           (w : Worker) : Worker :=
  match validate row with
  | Rejected why =>
      mkWorker (incr_failed (row_identifier row) why (job w)) (source w)
        (Draining rest consecutive) (registry w)
  | Accepted record =>
      match submit retries record (registry w) with
      | (Created, reg') =>
          mkWorker (incr_processed (job w)) (source w) (Draining rest 0) reg'
      | (DuplicateRejected, reg') =>
          mkWorker (incr_skipped (job w)) (source w) (Draining rest 0) reg'
      | (PermanentFailure, reg') =>
          mkWorker (incr_failed (identifier record) "rejected by the registry" (job w))
            (source w) (Draining rest 0) reg'
      | (TransientFailure, reg') =>
          let j := incr_failed (identifier record) "registry unreachable" (job w) in
          if (threshold <? S consecutive)%nat then
            mkWorker (set_status Failed registry_unavailable j) (source w) Stopped reg'
          else
            mkWorker j (source w) (Draining rest (S consecutive)) reg'
      end
  end.

(** Modelled from the spec: the transition table of section 4.4; one
    call is one transition, [None] once the job is terminal. *)
Definition step (w : Worker) : option Worker :=
  match phase w with
  | NotStarted =>
      Some (mkWorker (set_status Processing "parsing file" (job w)) (source w)
              Parsing (registry w))
  | Parsing =>
      match source w with
      | None =>
          Some (mkWorker (set_status Failed "file unreadable" (job w)) (source w)
                  Stopped (registry w))
      | Some [] =>
          Some (mkWorker (set_status Failed "no parseable rows" (job w)) (source w)
                  Stopped (registry w))
      | Some rows =>
          Some (mkWorker (set_total (length rows) (job w)) (source w)
                  (Draining rows 0) (registry w))
      end
  | Draining [] _ =>
      Some (mkWorker (set_status Completed (summary (job w)) (job w)) (source w)
              Stopped (registry w))
  | Draining (row :: rest) consecutive => Some (process_row row rest consecutive w)
  | Stopped => None
  end.

(** Modelled from the spec: the worker as the facade launches it
    (section 4.5). *)
Definition launch (j : UploadJob) (file : option (list RawRow)) (reg : Registry)
  : Worker :=
  mkWorker j file NotStarted reg.

Definition initial (w : Worker) : Prop :=
  ∃ job_id name now file reg, w = launch (create job_id name now) file reg.

Definition transition (w w' : Worker) : Prop := step w = Some w'.

(** What holds of a worker at every moment: the rows handled and the
    rows still to drain add up to the total, and a stopped job is terminal. *)
Definition consistent (w : Worker) : Prop :=
  match phase w with
  | NotStarted => status (job w) = Pending ∧ handled (job w) = 0 ∧ total_records (job w) = 0
  | Parsing => status (job w) = Processing ∧ handled (job w) = 0 ∧ total_records (job w) = 0
  | Draining rows _ =>
      status (job w) = Processing
      ∧ (handled (job w) + List.length rows)%nat = total_records (job w)
  | Stopped =>
      (status (job w) = Completed ∧ handled (job w) = total_records (job w))
      ∨ (status (job w) = Failed ∧ message (job w) ≠ registry_unavailable
         ∧ handled (job w) = 0 ∧ total_records (job w) = 0)
      ∨ (status (job w) = Failed ∧ message (job w) = registry_unavailable
         ∧ (handled (job w) ≤ total_records (job w))%nat)
  end.

(** The transitions a worker still has to make. *)
Definition fuel (w : Worker) : nat :=
  match phase w with
  | NotStarted => 3 + from_option (@length RawRow) 0 (source w)
  | Parsing => 2 + from_option (@length RawRow) 0 (source w)
  | Draining rows _ => 1 + length rows
  | Stopped => 0
  end.

(** [run n w]: at most [n] transitions. *)
Fixpoint run (n : nat) (w : Worker) : Worker :=
  match n with
  | O => w
  | S n' => match step w with Some w' => run n' w' | None => w end
  end.

End Worker.

Arguments mkWorker {Registry} job source phase registry.
Arguments job {Registry} w.
Arguments source {Registry} w.
Arguments phase {Registry} w.
Arguments registry {Registry} w.
Arguments submit {Registry} attempt n record reg.
Arguments process_row {Registry} attempt validate row_identifier retries threshold
  row rest consecutive w.
Arguments step {Registry} attempt validate row_identifier retries threshold w.
Arguments run {Registry} attempt validate row_identifier retries threshold n w.
Arguments transition {Registry} attempt validate row_identifier retries threshold w w'.
Arguments launch {Registry} j file reg.
Arguments initial {Registry} w.
Arguments consistent {Registry} w.
Arguments fuel {Registry} w.

(** Modelled from the spec: the registry behind the single-record API
    (section 6, outbound): the stored identifiers (the collection has a
    unique index on the identifier, see [mongo_init/01-init.js]) and the
    availability of the link for the attempts to come ([false]: the
    attempt times out; an exhausted list means the link stays up). *)
Record Registry : Type := mkRegistry {
  codes : gset string;
  link : list bool
}.

Section RegistryModel.
(** Modelled from the spec: whether the registry admits a document for
    reasons other than duplication (section 4.2, permanent failure). *)
Variable admits : NormalizedRecord -> bool.

(** Modelled from the spec: section 6, outbound: create the record,
    fail if an identifier collision exists. *)
Definition insert_record (record : NormalizedRecord) (reg : Registry)
  : Outcome * Registry :=
  if decide (identifier record ∈ codes reg) then (DuplicateRejected, reg)
  else if admits record then
    (Created, mkRegistry ({[identifier record]} ∪ codes reg) (link reg))
  else (PermanentFailure, reg).

(** Modelled from the spec: one attempt over the link; a timeout is a
    transient failure (section 4.2). *)
Definition registry_attempt (record : NormalizedRecord) (reg : Registry)
  : Outcome * Registry :=
  match link reg with
  | false :: later => (TransientFailure, mkRegistry (codes reg) later)
  | true :: later => insert_record record (mkRegistry (codes reg) later)
  | [] => insert_record record reg
  end.
End RegistryModel.


(** Modelled from the spec: what the caller of a submission gets back
    (section 6, inbound): the job identifier, the filename, the initial
    status and a message. *)
Record Handle : Type := mkHandle {
  handle_id : string;
  handle_filename : string;
  handle_status : JobStatus;
  handle_message : string
}.

(** Modelled from the spec: the file of an upload request, by its name
    and its rows ([None]: the bytes cannot be read). *)
Record UploadFile : Type := mkUploadFile {
  file_name : string;
  file_rows : option (list RawRow)
}.

(** Modelled from the spec: [submitUpload] of the facade (sections 4.5
    and 5): the job record is created, the background unit is scheduled
    and the handle is returned; a request without a file fails at once
    ([None]).  The identifier and the clock are the job store's. *)
Definition submitUpload {R : Type} (job_id : string) (now : nat)
           (request : option UploadFile) (reg : R) : option (Handle * Worker R) :=
  match request with
  | None => None
  | Some file =>
      let j := create job_id (file_name file) now in
      Some (mkHandle (id j) (filename j) (status j) (message j),
            launch j (file_rows file) reg)
  end.

(** Modelled from the spec: [getStatus] of the facade (section 4.5): the
    current snapshot of the job, whatever the worker is doing. *)
Definition getStatus {R : Type} (w : Worker R) : UploadJob := job w.

End UploadService.

(** ** The identifier format in words *)

Module Format.

Definition is_upper (c : ascii) : bool :=
  ((65 <=? nat_of_ascii c) && (nat_of_ascii c <=? 90))%nat.

Definition is_digit (c : ascii) : bool :=
  ((48 <=? nat_of_ascii c) && (nat_of_ascii c <=? 57))%nat.

Definition is_upper_or_digit (c : ascii) : bool := is_upper c || is_digit c.

Fixpoint all_chars (p : ascii -> bool) (s : string) : bool :=
  match s with
  | EmptyString => true
  | String c s' => p c && all_chars p s'
  end.

(** Four letters (institution), two letters (country), two letters or
    digits (location), and optionally three letters or digits (branch). *)
Definition swift_format (s : string) : Prop :=
  ∃ institution country location branch : string,
    s = institution +:+ country +:+ location +:+ branch
    ∧ String.length institution = 4 ∧ all_chars is_upper institution = true
    ∧ String.length country = 2 ∧ all_chars is_upper country = true
    ∧ String.length location = 2 ∧ all_chars is_upper_or_digit location = true
    ∧ (branch = ""
       ∨ (String.length branch = 3 ∧ all_chars is_upper_or_digit branch = true)).

End Format.

(** ** The validation rules, field by field *)

Module Rules.
Import JsString CreatePage Format.

(** Identifier: presence, then length, then format. *)
Definition identifier_rule (fd : FormData) : option string :=
  if decide (swiftCode fd = "") then Some "SWIFT code is required"
  else if decide (String.length (swiftCode fd) = 8 ∨ String.length (swiftCode fd) = 11)
       then if RegExp.test pattern (swiftCode fd) then None
            else Some "Invalid SWIFT code format"
       else Some "SWIFT code must be either 8 or 11 characters long".

(** The identifier denotes a headquarters: 11 characters ending in XXX. *)
Definition headquarters_code (code : string) : bool :=
  (String.length code =? 11)%nat && endsWith code "XXX".

(** Headquarters flag: it has to agree with the identifier. *)
Definition headquarters_rule (fd : FormData) : option string :=
  match headquarters_code (swiftCode fd), isHeadquarter fd with
  | true, false => Some "SWIFT codes ending with XXX must be headquarters"
  | false, true => Some "Only SWIFT codes ending with XXX can be headquarters"
  | _, _ => None
  end.

Definition address_rule (fd : FormData) : option string :=
  if decide (address fd = "") then Some "Address is required" else None.

(** Country code: presence, then length, then letters only. *)
Definition country_code_rule (fd : FormData) : option string :=
  if decide (countryISO2 fd = "") then Some "Country code is required"
  else if decide (String.length (countryISO2 fd) = 2)
       then if RegExp.test letters_only (countryISO2 fd) then None
            else Some "Country code must contain only letters"
       else Some "Country code must be exactly 2 characters".

Definition country_name_rule (fd : FormData) : option string :=
  if decide (countryName fd = "") then Some "Country name is required" else None.

(** [errors.field = why] when the rule of [field] is violated. *)
Definition report (field : string) (verdict : option string)
           (errors : gmap string string) : gmap string string :=
  match verdict with
  | Some why => <[field := why]> errors
  | None => errors
  end.

(** The rules in the order of section 4.1 of the design document:
    identifier, headquarters suffix, country code, country name and address. *)
Definition rules_in_order (fd : FormData) : list (string * option string) :=
  [("swiftCode", identifier_rule fd);
   ("isHeadquarter", headquarters_rule fd);
   ("countryISO2", country_code_rule fd);
   ("countryName", country_name_rule fd);
   ("address", address_rule fd)].

(** The first violated rule, if any. *)
Fixpoint first_violation (rules : list (string * option string))
  : option (string * string) :=
  match rules with
  | [] => None
  | (field, Some why) :: _ => Some (field, why)
  | (_, None) :: rest => first_violation rest
  end.

(** "First failure wins": what is reported is the first violated rule alone. *)
Definition first_failure_wins (fd : FormData) : Prop :=
  validateForm fd =
    match first_violation (rules_in_order fd) with
    | Some (field, why) => {[ field := why ]}
    | None => ∅
    end.

(** The record that reaches the registry is marked as a headquarters. *)
Definition classified_headquarters (st : State) (srv : Js.Server) : Prop :=
  ∃ r, Js.Http r ∈ Js.trace (handleSubmit st) srv
       ∧ Js.get_field (Js.body r) "isHeadquarter" = Js.JBool true.

End Rules.

(** ** Sample inputs *)

Module Samples.
Import CreatePage.

Definition accepting_server : Js.Server :=
  fun _ => Js.Return (Js.mkResponse 201 Js.JNull).

Definition page (fd : FormData) : State := mkState fd false None ∅.

Definition deutsche_bank : FormData :=
  mkFormData "DEUTDEFF" "Taunusanlage 12, 60325 Frankfurt am Main" "DE" "Germany" false.

Definition deutsche_bank_hq : FormData :=
  mkFormData "DEUTDEFFXXX" "Taunusanlage 12, 60325 Frankfurt am Main" "DE" "Germany" true.

(** Six characters: too short. *)
Definition short_code : FormData :=
  mkFormData "BADCOD" "1 Main Street" "US" "United States" false.

(** Two rules violated at once: no identifier and no address. *)
Definition two_violations : FormData :=
  mkFormData "" "" "DE" "Germany" false.

(** The count endpoint is missing (404); the listing answers three records. *)
Definition no_count_endpoint : Js.Server :=
  fun r =>
    if String.eqb (Js.path r) "/api/v1/swift-code/count" then
      Js.Throw (Js.mkError "Request failed with status code 404"
                  (Some (Js.mkResponse 404 Js.JNull)))
    else
      Js.Return (Js.mkResponse 200
                   (Js.JArr [to_json deutsche_bank; to_json deutsche_bank_hq;
                             to_json short_code])).

Definition every_record : ApiService.CountParams :=
  ApiService.mkCountParams None None.

(** A job that is being processed: 29 rows out of 100 are done. *)
Definition job_29_of_100 : UploadStatus.JobSnapshot :=
  UploadStatus.mkJobSnapshot "7c0e" "codes.csv" "processing" 100 29 0 0
    "processing records".

(** A validator for the samples: the identifier column has to be there. *)
Definition sample_validate (row : gmap string string) : UploadService.ValidationOutcome :=
  match row !! "SWIFT CODE" with
  | Some code =>
      UploadService.Accepted
        (UploadService.mkNormalizedRecord code (default "" (row !! "ADDRESS"))
           (default "" (row !! "COUNTRY ISO2 CODE")) (default "" (row !! "COUNTRY NAME"))
           (Rules.headquarters_code code))
  | None => UploadService.Rejected "missing identifier"
  end.

Definition sample_row_identifier (row : gmap string string) : string :=
  default "" (row !! "SWIFT CODE").

Definition sample_row (code : string) : gmap string string :=
  {[ "SWIFT CODE" := code; "ADDRESS" := "1 Main Street";
     "COUNTRY ISO2 CODE" := "US"; "COUNTRY NAME" := "United States" ]}.

Definition empty_registry : UploadService.Registry :=
  UploadService.mkRegistry ∅ [].

(** The worker of the samples: three attempts per record, the job is given
    up after more than two consecutive unreachable records. *)
Definition sample_run :=
  UploadService.run (UploadService.registry_attempt (fun _ => true))
    sample_validate sample_row_identifier 2 2.

(** The upload of the design document: four rows, one of them without an
    identifier column. *)
Definition four_rows : list (gmap string string) :=
  [sample_row "DEUTDEFF"; sample_row "DEUTDEFFXXX"; {[ "ADDRESS" := "nowhere" ]};
   sample_row "CHASUS33"].

Definition first_upload : UploadService.Worker UploadService.Registry :=
  UploadService.launch (UploadService.create "job-1" "codes.csv" 0)
    (Some four_rows) empty_registry.






End Samples.

(** ** [pages/HomePage.js]: the pager

    Page numbers and counts are integers far below 2^53, where the
    additions, subtractions, comparisons, [Math.max] and [Math.min] of the
    source are exact; they are integers in [Z] here. *)

Module HomePager.

(** What [renderPagination] pushes on [items]. *)
Inductive Item : Type :=
| PageItem (number : Z) (active : bool)
| Ellipsis.

(** [for (let number = startPage; number <= endPage; number++)] *)
Definition numbers (startPage endPage : Z) : list Z :=
  map (fun i => (startPage + Z.of_nat i)%Z)
      (seq 0 (Z.to_nat (endPage - startPage + 1))).

(** [startPage] and [endPage] as [renderPagination] settles them. *)
Definition visible_range (currentPage totalPages : Z) : Z * Z :=
  let startPage := Z.max 1 (currentPage - 2) in
  let endPage := Z.min totalPages (startPage + 4) in
  let startPage :=
    if (endPage =? totalPages)%Z then Z.max 1 (endPage - 4) else startPage in
  (startPage, endPage).

(** The [items] of [renderPagination]. *)
Definition renderPagination (currentPage totalPages : Z) : list Item :=
  let '(startPage, endPage) := visible_range currentPage totalPages in
  let items : list Item := [] in
  let items :=
    if (1 <? startPage)%Z then
      let items := (items ++ [PageItem 1 (1 =? currentPage)%Z])%list in
      if (2 <? startPage)%Z then (items ++ [Ellipsis])%list else items
    else items in
  let items :=
    (items ++ map (fun number => PageItem number (number =? currentPage)%Z)
                  (numbers startPage endPage))%list in
  let items :=
    if (endPage <? totalPages)%Z then
      let items :=
        if (endPage <? totalPages - 1)%Z then (items ++ [Ellipsis])%list else items in
      (items ++ [PageItem totalPages (totalPages =? currentPage)%Z])%list
    else items in
  items.

(** The page numbers shown, in order. *)
Definition page_numbers (items : list Item) : list Z :=
  omap (fun item => match item with PageItem n _ => Some n | Ellipsis => None end) items.

(** The items shown as active. *)
Definition active_pages (items : list Item) : list Z :=
  omap (fun item => match item with PageItem n true => Some n | _ => None end) items.

(** An item is flagged active exactly when its number is [cur]. *)
Definition flagged (cur : Z) (item : Item) : Prop :=
  match item with
  | PageItem n b => b = (n =? cur)%Z
  | Ellipsis => True
  end.

(** The controls of the pager. *)
Inductive Control : Type :=
| Prev
| Next
| Page (number : Z).

(** A control can be clicked: [Prev] and [Next] are not disabled, a page
    item is among the items rendered. *)
Definition clickable (currentPage totalPages : Z) (c : Control) : bool :=
  match c with
  | Prev => negb (currentPage =? 1)%Z
  | Next => negb ((currentPage =? totalPages)%Z || (totalPages =? 0)%Z)
  | Page n => bool_decide (n ∈ page_numbers (renderPagination currentPage totalPages))
  end.

(** The [onClick] of a control: the next value of [currentPage]. *)
Definition onClick (currentPage totalPages : Z) (c : Control) : Z :=
  match c with
  | Prev => Z.max (currentPage - 1) 1
  | Next => Z.min (currentPage + 1) totalPages
  | Page n => n
  end.

End HomePager.

(** ** More of [services/apiService.js] *)

Module SwiftCodeApi.
Import Js.

(** [s.includes(term)]: [term] occurs in [s] at some position. *)
Fixpoint includes (s term : string) : bool :=
  String.prefix term s
  || match s with
     | EmptyString => false
     | String _ s' => includes s' term
     end.

Record ListParams : Type := mkListParams {
  skip : option Z;                 (* [undefined] is [None] *)
  limit : option Z;
  country : option string;
  isHeadquarter : option bool;
  search : option string
}.

(** The [URLSearchParams] that [fetchSwiftCodes] builds; [skip] and
    [limit] default to 0 and 10. *)
Definition queryParams (params : ListParams) : list (string * string) :=
  let q := [("skip", pretty (default 0%Z (skip params)));
            ("limit", pretty (default 10%Z (limit params)))] in
  let q :=
    match country params with
    | Some c => if JsString.falsy c then q else (q ++ [("country", c)])%list
    | None => q
    end in
  let q :=
    match isHeadquarter params with
    | Some b => (q ++ [("is_headquarter", ApiService.bool_toString b)])%list
    | None => q
    end in
  q.

Definition listing_request (params : ListParams) : Request :=
  mkRequest GET "/api/v1/swift-code/" (queryParams params) JNull.

Section Search.
(** [String.prototype.toLowerCase], and the message of the [TypeError]
    the engine raises. *)
Variable toLowerCase : string -> string.
Variable type_error : string.

(** [code.key.toLowerCase().includes(term)]; [None] is the [TypeError]
    raised when [code.key] is not a string. *)
Definition field_includes (code : Json) (key term : string) : option bool :=
  match get_field code key with
  | JStr s => Some (includes (toLowerCase s) term)
  | _ => None
  end.

(** The callback of [data.filter]: the three tests, left to right, each
    one evaluated only when the ones before it failed. *)
Definition matches (term : string) (code : Json) : option bool :=
  match field_includes code "swiftCode" term with
  | None => None
  | Some true => Some true
  | Some false =>
      match field_includes code "address" term with
      | None => None
      | Some true => Some true
      | Some false => field_includes code "countryName" term
      end
  end.

(** [items.filter(callback)], stopping at the first [TypeError]. *)
Fixpoint filter_codes (term : string) (items : list Json) : option (list Json) :=
  match items with
  | [] => Some []
  | code :: rest =>
      match matches term code with
      | None => None
      | Some keep =>
          match filter_codes term rest with
          | None => None
          | Some kept => Some (if keep then code :: kept else kept)
          end
      end
  end.

Definition fetchSwiftCodes (params : ListParams) : Async Json :=
  try_catch
    (response ← ApiService.apiClient_get "/api/v1/swift-code/" (queryParams params);
     let data := data response in
     match search params with
     | Some s =>
         if JsString.falsy s then ret data
         else
           let searchTerm := toLowerCase s in
           match data with
           | JArr items =>
               match filter_codes searchTerm items with
               | Some kept => ret (JArr kept)
               | None => throw (mkError type_error None)
               end
           | _ => throw (mkError type_error None)
           end
     | None => ret data
     end)
    (fun error =>
       effect (ConsoleError "Error fetching SWIFT codes:");;
       throw error).
End Search.

(** A record of the listing with its three text fields. *)
Definition well_formed (code : Json) : Prop :=
  ∃ swiftCode address countryName,
    get_field code "swiftCode" = JStr swiftCode
    ∧ get_field code "address" = JStr address
    ∧ get_field code "countryName" = JStr countryName.

(** [term] occurs in [s]. *)
Definition occurs (term s : string) : Prop :=
  ∃ before after, s = before +:+ term +:+ after.

(** A record has [term] in the lower-cased text of one of the three
    fields searched. *)
Definition mentions (toLowerCase : string -> string) (term : string) (code : Json)
  : Prop :=
  ∃ key s, key ∈ ["swiftCode"; "address"; "countryName"]
           ∧ get_field code key = JStr s ∧ occurs term (toLowerCase s).

Definition fetchSwiftCodeByCode (swiftCode : string) : Async Json :=
  try_catch
    (response ← ApiService.apiClient_get ("/api/v1/swift-code/" +:+ swiftCode) [];
     ret (data response))
    (fun error =>
       effect (ConsoleError ("Error fetching SWIFT code " +:+ swiftCode +:+ ":"));;
       throw error).

Definition deleteSwiftCode (swiftCode : string) : Async bool :=
  try_catch
    (request (mkRequest DELETE ("/api/v1/swift-code/" +:+ swiftCode) [] JNull);;
     ret true)
    (fun error =>
       effect (ConsoleError ("Error deleting SWIFT code " +:+ swiftCode +:+ ":"));;
       throw error).

End SwiftCodeApi.

(** ** More of [services/uploadApiService.js] *)

Module UploadApi.
Import Js.

(** A [File] of the browser: its name and its bytes. *)
Record File : Type := mkFile { name : string; content : string }.

(** The multipart body with the one part [file]. *)
Definition form_data (file : File) : Json :=
  JObj [("file", JObj [("name", JStr (name file)); ("content", JStr (content file))])].

Definition upload_request (file : File) : Request :=
  mkRequest POST "/api/v1/upload/" [] (form_data file).

Definition uploadSwiftCodesFile (file : File) : Async Json :=
  try_catch
    (response ← request (mkRequest POST "/api/v1/upload/" [] (form_data file));
     ret (data response))
    (fun error =>
       effect (ConsoleError "Error uploading SWIFT codes file:");;
       throw error).

Definition status_request (uploadId : string) : Request :=
  mkRequest GET ("/api/v1/upload/" +:+ uploadId) [] JNull.

Definition getUploadStatus (uploadId : string) : Async Json :=
  try_catch
    (response ← UploadApiService.uploadApiClient_get ("/api/v1/upload/" +:+ uploadId);
     ret (data response))
    (fun error =>
       effect (ConsoleError ("Error getting upload status for " +:+ uploadId +:+ ":"));;
       throw error).

Definition getUploadStats : Async Json :=
  try_catch
    (response ← UploadApiService.uploadApiClient_get "/api/v1/upload/stats/summary";
     ret (data response))
    (fun error =>
       effect (ConsoleError "Error getting upload stats:");;
       throw error).

(** [error.response?.data?.detail || error.message || fallback], the text
    the components show for a failed request. *)
Definition optional_detail (err : Error) : Json :=
  match response err with
  | None => JNull
  | Some r =>
      match data r with
      | JNull => JNull
      | d => get_field d "detail"
      end
  end.

Definition error_text (err : Error) (fallback : string) : Json :=
  if truthy (optional_detail err) then optional_detail err
  else if negb (JsString.falsy (message err)) then JStr (message err)
  else JStr fallback.

End UploadApi.

(** ** [components/FileUploader.js] *)

Module FileUploader.
Import Js UploadApi.

(** The five [useState] cells, and beside them the number of timers
    started by [handleSubmit] that are still running and the calls of the
    [onUploadComplete] property so far, the latest last (the property, when
    given, is taken to return normally). *)
Record State : Type := mkState {
  file : option File;
  isUploading : bool;
  uploadProgress : Z;
  uploadError : option Json;
  uploadResult : option Json;
  progressIntervals : nat;
  uploadComplete : list Json
}.

Definition initial : State := mkState None false 0 None None 0 [].

(** The updater the timer passes to [setUploadProgress] every 300 ms. *)
Definition tick (prev : Z) : Z :=
  let newProgress := (prev + 10)%Z in
  if (newProgress <? 90)%Z then newProgress else prev.

Section Handlers.
(** [String.prototype.toLowerCase]. *)
Variable toLowerCase : string -> string.
(** The component was given an [onUploadComplete] property. *)
Variable onUploadComplete : bool.
(** The number of times the timer fires while the upload is awaited. *)
Variable ticks : nat.

Definition handleSubmit (st : State) : Async State :=
  match file st with
  | None =>
      ret (mkState (file st) (isUploading st) (uploadProgress st)
             (Some (JStr "Please select a file to upload")) (uploadResult st)
             (progressIntervals st) (uploadComplete st))
  | Some f =>
      if negb (JsString.endsWith (toLowerCase (name f)) ".csv") then
        ret (mkState (file st) (isUploading st) (uploadProgress st)
               (Some (JStr "Only CSV files are allowed")) (uploadResult st)
               (progressIntervals st) (uploadComplete st))
      else
        try_catch
          (result ← uploadSwiftCodesFile f;
           ret (mkState (file st) false 100 None (Some result) (progressIntervals st)
                  (if onUploadComplete then (uploadComplete st ++ [result])%list
                   else uploadComplete st)))
          (fun error =>
             ret (mkState (file st) false (Nat.iter ticks tick 0%Z)
                    (Some (error_text error "Error uploading file")) None
                    (S (progressIntervals st)) (uploadComplete st)))
  end.
End Handlers.

End FileUploader.

(** ** [components/UploadStatus.js]: polling *)

Module StatusPolling.
Import Js UploadApi.

(** The four [useState] cells ([status] is [JNull] before the first
    answer), and the calls of the [onComplete] property so far (the
    property, when given, is taken to return normally). *)
Record State : Type := mkState {
  status : Json;
  loading : bool;
  error : option Json;
  pollingActive : bool;
  complete : list Json
}.

Definition initial : State := mkState JNull true None true [].

(** [data.status === 'completed' || data.status === 'failed'] *)
Definition terminal (data : Json) : bool :=
  match get_field data "status" with
  | JStr s => String.eqb s "completed" || String.eqb s "failed"
  | _ => false
  end.

(** The answer that keeps the polling going: a job that is there and not
    yet completed or failed. *)
Definition keeps_polling (answer : Completion Response) : bool :=
  match answer with
  | Return resp =>
      match data resp with
      | JNull => false
      | d => negb (terminal d)
      end
  | Throw _ => false
  end.

Section Handlers.
(** The component was given an [onComplete] property. *)
Variable onComplete : bool.
(** The message of the [TypeError] of [data.status] on [null]. *)
Variable type_error : string.

(** The [catch] and [finally] of [fetchStatus]. *)
Definition failed (st : State) (err : Error) : State :=
  mkState (status st) false (Some (error_text err "Error fetching upload status"))
    false (complete st).

Definition fetchStatus (uploadId : string) (st : State) : Async State :=
  fun srv =>
    match getUploadStatus uploadId srv with
    | (t, Return data) =>
        match data with
        | JNull => (t, Return (failed (mkState data (loading st) None (pollingActive st)
                                         (complete st))
                                 (mkError type_error None)))
        | _ =>
            if terminal data then
              (t, Return (mkState data false None false
                            (if onComplete then (complete st ++ [data])%list
                             else complete st)))
            else
              (t, Return (mkState data false None (pollingActive st) (complete st)))
        end
    | (t, Throw err) =>
        (t, Return (failed (mkState (status st) (loading st) None (pollingActive st)
                              (complete st)) err))
    end.

(** The callback of [setInterval]: fetch only while polling is active. *)
Definition onInterval (uploadId : string) (st : State) : Async State :=
  if pollingActive st then fetchStatus uploadId st else ret st.
End Handlers.

End StatusPolling.

(** ** [pages/CreatePage.js]: the other controls of the form *)

Module CreatePageControls.
Import JsString CreatePage.

(** [countryOptions]: code and name. *)
Definition countryOptions : list (string * string) :=
  [("US", "United States"); ("DE", "Germany"); ("GB", "United Kingdom");
   ("JP", "Japan"); ("FR", "France"); ("CA", "Canada"); ("CN", "China");
   ("AU", "Australia"); ("IT", "Italy"); ("ES", "Spain")].

(** [countryOptions.find(c => c.code === countryCode)] *)
Definition find_country (countryCode : string) : option (string * string) :=
  List.find (fun c => String.eqb (fst c) countryCode) countryOptions.

(** [null]-ing the entries of [validationErrors] that are set. *)
Definition clear_error (key : string) (errors : gmap string (option string))
  : gmap string (option string) :=
  <[key := None]> errors.

Definition handleCountrySelect (countryCode : string) (st : State) : State :=
  let country := find_country countryCode in
  let st' :=
    setFormData
      (mkFormData (swiftCode (formData st)) (address (formData st)) countryCode
         (match country with Some c => snd c | None => "" end)
         (isHeadquarter (formData st)))
      st in
  if has_error "countryISO2" st || has_error "countryName" st then
    setValidationErrors
      (clear_error "countryName" (clear_error "countryISO2" (validationErrors st))) st'
  else st'.

(** The two controls whose [onChange] is [handleChange]: the address
    field (a text input named [address]) and the headquarters checkbox
    (named [isHeadquarter]). *)
Inductive Target : Type :=
| AddressField (value : string)
| HeadquarterCheckbox (checked : bool).

Definition target_name (t : Target) : string :=
  match t with
  | AddressField _ => "address"
  | HeadquarterCheckbox _ => "isHeadquarter"
  end.

(** [handleChange]: [formData[name]] becomes [checked] for a checkbox and
    [value] otherwise, and a set error of the field is cleared. *)
Definition handleChange (t : Target) (st : State) : State :=
  let fd := formData st in
  let st' :=
    setFormData
      (match t with
       | AddressField value =>
           mkFormData (swiftCode fd) value (countryISO2 fd) (countryName fd)
             (isHeadquarter fd)
       | HeadquarterCheckbox checked =>
           mkFormData (swiftCode fd) (address fd) (countryISO2 fd) (countryName fd)
             checked
       end)
      st in
  if has_error (target_name t) st then
    setValidationErrors (clear_error (target_name t) (validationErrors st)) st'
  else st'.

(** The [disabled] attribute of the headquarters checkbox. *)
Definition checkbox_disabled (st : State) : bool :=
  (String.length (swiftCode (formData st)) =? 11)%nat
  && endsWith (swiftCode (formData st)) "XXX".

(** What the user does to the form. *)
Inductive Event : Type :=
| TypeSwiftCode (value : string)
| TypeAddress (value : string)
| ToggleHeadquarter (checked : bool)
| SelectCountry (countryCode : string).

Section Page.
Variable toUpperCase : string -> string.

(** The handler each control is wired to; a disabled checkbox fires no
    event. *)
Definition dispatch (st : State) (ev : Event) : State :=
  match ev with
  | TypeSwiftCode value => handleSwiftCodeChange toUpperCase value st
  | TypeAddress value => handleChange (AddressField value) st
  | ToggleHeadquarter checked =>
      if checkbox_disabled st then st else handleChange (HeadquarterCheckbox checked) st
  | SelectCountry countryCode => handleCountrySelect countryCode st
  end.

(** The form after a sequence of events, from the first render. *)
Definition after (events : list Event) : State :=
  fold_left dispatch events
    (mkState (mkFormData "" "" "" "" false) false None ∅).

(** The states the page can be in: the first render, and from there the
    edits through the four controls and the submissions of the form,
    whatever the server answers. *)
Inductive reached : State -> Prop :=
| reached_first_render :
    reached (mkState (mkFormData "" "" "" "" false) false None ∅)
| reached_edit st ev :
    reached st -> reached (dispatch st ev)
| reached_submit st srv st' :
    reached st -> Js.run (handleSubmit st) srv = Js.Return st' -> reached st'.
End Page.

End CreatePageControls.

(** ** [mongo_init/01-init.js]: the validator of the collection *)

Module MongoInit.
Import Js RegExp.

Section Schema.
(** The end anchor [$] of the regular expressions of the database: where
    a match may stop. *)
Variable dollar : string -> bool.

Definition has_field (doc : Json) (key : string) : bool :=
  match doc with
  | JObj fields => existsb (fun kv => String.eqb (fst kv) key) fields
  | _ => false
  end.

(** [bsonType: "string"] with [minLength] and [maxLength]. *)
Definition string_of_length (min max : nat) (v : Json) : bool :=
  match v with
  | JStr s => ((min <=? String.length s) && (String.length s <=? max))%nat
  | _ => false
  end.

(** [pattern], for a regular expression anchored at both ends. *)
Definition matches_pattern (r : regex) (v : Json) : bool :=
  match v with
  | JStr s => rmatch r dollar s
  | _ => true
  end.

(** [bsonType: "bool"] *)
Definition is_bool (v : Json) : bool :=
  match v with JBool _ => true | _ => false end.

(** ["^[A-Z]{4}[A-Z]{2}[A-Z0-9]{2}([A-Z0-9]{3})?$"] *)
Definition swiftCode_pattern : regex :=
  Concat (Times 4 (Class upper))
    (Concat (Times 2 (Class upper))
       (Concat (Times 2 (Class upper_or_digit))
          (Optional (Times 3 (Class upper_or_digit))))).

(** ["^[A-Z]{2}$"] *)
Definition countryISO2_pattern : regex := Times 2 (Class upper).

Definition required : list string :=
  ["swiftCode"; "address"; "countryISO2"; "countryName"; "isHeadquarter"].

(** The constraint of a property applies when the property is there. *)
Definition property (doc : Json) (key : string) (check : Json -> bool) : bool :=
  if has_field doc key then check (get_field doc key) else true.

(** The [$jsonSchema] of [swift_codes]. *)
Definition validator (doc : Json) : bool :=
  match doc with
  | JObj _ =>
      forallb (has_field doc) required
      && property doc "swiftCode"
           (fun v => string_of_length 8 11 v && matches_pattern swiftCode_pattern v)
      && property doc "address" (string_of_length 1 255)
      && property doc "countryISO2"
           (fun v => string_of_length 2 2 v && matches_pattern countryISO2_pattern v)
      && property doc "countryName" (string_of_length 1 100)
      && property doc "isHeadquarter" is_bool
  | _ => false
  end.
End Schema.

End MongoInit.

(** ** [pages/HomePage.js]: loading the list *)

Module HomePage.
Import Js.

(** The state of the component that [loadSwiftCodes] reads and writes.
    [totalCount] holds whatever the count answer carried. *)
Record State : Type := mkState {
  swiftCodes : list Json;
  loading : bool;
  error : option string;
  currentPage : Z;
  totalCount : Json;
  searchTerm : string;
  countryFilter : string;
  headquarterFilter : string
}.

Definition itemsPerPage : Z := 10.

Definition setSwiftCodes (v : list Json) (st : State) : State :=
  mkState v (loading st) (error st) (currentPage st) (totalCount st)
    (searchTerm st) (countryFilter st) (headquarterFilter st).

Definition setLoading (v : bool) (st : State) : State :=
  mkState (swiftCodes st) v (error st) (currentPage st) (totalCount st)
    (searchTerm st) (countryFilter st) (headquarterFilter st).

Definition setError (v : option string) (st : State) : State :=
  mkState (swiftCodes st) (loading st) v (currentPage st) (totalCount st)
    (searchTerm st) (countryFilter st) (headquarterFilter st).

Definition setTotalCount (v : Json) (st : State) : State :=
  mkState (swiftCodes st) (loading st) (error st) (currentPage st) v
    (searchTerm st) (countryFilter st) (headquarterFilter st).

(** [countryFilter || undefined] *)
Definition country_param (st : State) : option string :=
  if JsString.falsy (countryFilter st) then None else Some (countryFilter st).

(** The filter string as a boolean, or [undefined]. *)
Definition isHeadquarter_param (st : State) : option bool :=
  if String.eqb (headquarterFilter st) "true" then Some true
  else if String.eqb (headquarterFilter st) "false" then Some false
  else None.

Definition count_params (st : State) : ApiService.CountParams :=
  ApiService.mkCountParams (country_param st) (isHeadquarter_param st).

Definition list_params (st : State) : SwiftCodeApi.ListParams :=
  SwiftCodeApi.mkListParams
    (Some ((currentPage st - 1) * itemsPerPage)%Z) (Some itemsPerPage)
    (country_param st) (isHeadquarter_param st) (Some (searchTerm st)).

(** [totalCount === 0] *)
Definition is_zero (v : Json) : bool :=
  match v with JNum n => (n =? 0)%Z | _ => false end.

(** The total the page assumes from the records of one page. *)
Definition estimate (page : Z) (items : list Json) : Z :=
  let n := Z.of_nat (length items) in
  if (itemsPerPage <=? n)%Z then (page * itemsPerPage + itemsPerPage)%Z
  else ((page - 1) * itemsPerPage + n)%Z.

(** The requests among the effects of a run, in order. *)
Definition requests (effects : list Effect) : list Request :=
  omap (fun e => match e with Http r => Some r | _ => None end) effects.

Section Load.
Variable toLowerCase : string -> string.
Variable type_error : string.

(** The inner [try] of [loadSwiftCodes]: the count, whose failure is only
    logged.  Reading [count] of a [null] answer is a [TypeError], caught
    like the others. *)
Definition load_count (st : State) : Async State :=
  try_catch
    (countResponse ← ApiService.fetchSwiftCodesCount (count_params st);
     match countResponse with
     | JNull => throw (mkError type_error None)
     | _ =>
         let count := get_field countResponse "count" in
         ret (setTotalCount (if truthy count then count else JNum 0) st)
     end)
    (fun countError =>
       effect (ConsoleError "Error fetching count:");;
       ret st).

(** [loadSwiftCodes], on the state [st] of the render that created it:
    [currentPage], [totalCount] and the filters are read from [st]
    throughout.  Nothing before the listing can throw out of the outer
    [try], so its [catch] continues from the state the count left. *)
Definition loadSwiftCodes (st : State) : Async State :=
  st ← ret (setError None (setLoading true st));
  counted ← load_count st;
  loaded ←
    try_catch
      (data ← SwiftCodeApi.fetchSwiftCodes toLowerCase type_error (list_params st);
       effect (ConsoleLog "API Response:");;
       let estimated :=
         match data with
         | JArr items =>
             if (0 <? Z.of_nat (length items))%Z && is_zero (totalCount st) then
               setTotalCount (JNum (estimate (currentPage st) items)) counted
             else counted
         | _ => counted
         end in
       ret (setSwiftCodes (match data with JArr items => items | _ => [] end)
              estimated))
      (fun err =>
         effect (ConsoleError "API Error:");;
         ret (setSwiftCodes []
                (setError
                   (Some ("Failed to load SWIFT codes. Please check that the API server is running and accessible. Error details: "
                          +:+ (if JsString.falsy (message err) then "Unknown error"
                               else message err)))
                   counted)));
  ret (setLoading false loaded).
End Load.

End HomePage.

(** ** More sample inputs *)

Module PageSamples.
Import Js.

Definition lower_ascii (c : ascii) : ascii :=
  let n := nat_of_ascii c in
  if ((65 <=? n) && (n <=? 90))%nat then ascii_of_nat (n + 32) else c.

(** [toLowerCase] on the letters A to Z. *)
Fixpoint toLowerCase_ascii (s : string) : string :=
  match s with
  | EmptyString => EmptyString
  | String c s' => String (lower_ascii c) (toLowerCase_ascii s')
  end.

Definition not_a_function : string := "code.swiftCode.toLowerCase is not a function".

(** Two records of the seed data. *)
Definition deutsche_record : Json := CreatePage.to_json Samples.deutsche_bank.

Definition chase_record : Json :=
  CreatePage.to_json
    (CreatePage.mkFormData "CHASUS33" "270 Park Avenue, New York" "US"
       "United States" false).

(** A record whose identifier is a number. *)
Definition numbered_record : Json :=
  JObj [("swiftCode", JNum 42); ("address", JStr "nowhere");
        ("countryName", JStr "Germany")].

(** A server that answers every request with the same data. *)
Definition answering (v : Json) : Server := fun _ => Return (mkResponse 200 v).

(** A server that is not reachable. *)
Definition unreachable : Server := fun _ => Throw (mkError "Network Error" None).

(** The count endpoint answers 500 and the listing a page of two records. *)
Definition count_500_page_of_two : Server :=
  fun r =>
    if String.eqb (path r) "/api/v1/swift-code/count" then
      Return (mkResponse 200 (JObj [("count", JNum 500)]))
    else Return (mkResponse 200 (JArr [deutsche_record; chase_record])).

Definition search_deut : SwiftCodeApi.ListParams :=
  SwiftCodeApi.mkListParams (Some 0%Z) (Some 10%Z) None None (Some "Deut").

Definition first_render : HomePage.State :=
  HomePage.mkState [] true None 1 (JNum 0) "" "" "".

(** A later render: the second page of 37 records. *)
Definition second_page : HomePage.State :=
  HomePage.mkState [] false None 2 (JNum 37) "" "" "".

Definition csv_file : UploadApi.File :=
  UploadApi.mkFile "Codes.CSV" "SWIFT CODE,ADDRESS".

Definition text_file : UploadApi.File :=
  UploadApi.mkFile "codes.txt" "SWIFT CODE,ADDRESS".

Definition chosen (f : UploadApi.File) : FileUploader.State :=
  FileUploader.mkState (Some f) false 0 None None 0 [].

(** An end anchor that lets a match stop at the end of the text only. *)
Definition at_end_only (s : string) : bool := String.eqb s "".

(** Typing the identifier of a headquarters, then trying the checkbox. *)
Definition typing_headquarters : list CreatePageControls.Event :=
  [CreatePageControls.TypeSwiftCode "deutdeffxxx";
   CreatePageControls.ToggleHeadquarter false;
   CreatePageControls.SelectCountry "DE";
   CreatePageControls.TypeAddress "Taunusanlage 12"].

End PageSamples.

(** * Properties *)

Import JsString RegExp CreatePage Format Rules Samples.

(** ** The regular expressions of the form *)

Lemma in_class_upper c : in_class upper c = is_upper c.
Proof. unfold in_class, upper, in_range, is_upper. cbn. by rewrite orb_false_r. Qed.

Lemma in_class_upper_or_digit c : in_class upper_or_digit c = is_upper_or_digit c.
Proof.
  unfold in_class, upper_or_digit, in_range, is_upper_or_digit, is_upper, is_digit.
  cbn. by rewrite orb_false_r.
Qed.

Ltac bool_hyps :=
  repeat match goal with
    | H : _ && _ = true |- _ => apply andb_prop in H as [? ?]
    | H : _ || _ = true |- _ => apply orb_prop in H as [?|?]
    | H : false = true |- _ => discriminate H
    | H : true = true |- _ => clear H
    end.

Ltac rewrite_true :=
  repeat match goal with H : _ = true |- _ => rewrite H; clear H end.

Lemma test_pattern_sound s : test pattern s = true → swift_format s.
Proof.
  destruct s as [|c1 [|c2 [|c3 [|c4 [|c5 [|c6 [|c7 [|c8 [|c9 [|c10 [|c11 [|c12 s]]]]]]]]]]]];
    unfold test, pattern; cbn -[in_class];
    rewrite ?in_class_upper, ?in_class_upper_or_digit; intros H; bool_hyps.
  - exists (String c1 (String c2 (String c3 (String c4 "")))),
      (String c5 (String c6 "")), (String c7 (String c8 "")), "".
    cbn. rewrite !andb_true_r.
    repeat split; auto; try (right; split; [done|]); by rewrite_true.
  - exists (String c1 (String c2 (String c3 (String c4 "")))),
      (String c5 (String c6 "")), (String c7 (String c8 "")),
      (String c9 (String c10 (String c11 ""))).
    cbn. rewrite !andb_true_r.
    repeat split; auto; try (right; split; [done|]); by rewrite_true.
Qed.

Lemma test_pattern_complete s : swift_format s → test pattern s = true.
Proof.
  intros (i & c & l & b & -> & Hi & Ai & Hc & Ac & Hl & Al & Hb).
  do 5 (destruct i as [|? i]; try discriminate Hi).
  do 3 (destruct c as [|? c]; try discriminate Hc).
  do 3 (destruct l as [|? l]; try discriminate Hl).
  cbn in Ai, Ac, Al. bool_hyps.
  destruct Hb as [-> | [Hb Ab]].
  - cbv [String.append]. unfold test, pattern; cbn -[in_class].
    rewrite ?in_class_upper, ?in_class_upper_or_digit.
    by rewrite_true.
  - do 4 (destruct b as [|? b]; try discriminate Hb).
    cbn in Ab. bool_hyps.
    cbv [String.append]. unfold test, pattern; cbn -[in_class].
    rewrite ?in_class_upper, ?in_class_upper_or_digit.
    by rewrite_true.
Qed.

Lemma string_length_app s1 s2 :
  String.length (s1 +:+ s2) = String.length s1 + String.length s2.
Proof. induction s1 as [|c s1 IH]; cbn; [done | by rewrite <- IH]. Qed.

Lemma swift_format_length s :
  swift_format s → String.length s = 8 ∨ String.length s = 11.
Proof.
  intros (i & c & l & b & -> & Hi & _ & Hc & _ & Hl & _ & Hb).
  rewrite !string_length_app, Hi, Hc, Hl.
  destruct Hb as [-> | [-> _]]; cbn; auto.
Qed.
(** ** [validateForm], field by field *)

Lemma falsy_spec s : falsy s = true ↔ s = "".
Proof. destruct s; cbn; split; congruence. Qed.

Lemma falsy_decide {A} s (x y : A) :
  (if falsy s then x else y) = if decide (s = "") then x else y.
Proof. destruct s; by case_decide. Qed.

Lemma includes_8_11 n : includes [8; 11] n = true ↔ n = 8 ∨ n = 11.
Proof.
  unfold includes. cbn. rewrite orb_false_r, orb_true_iff, !Nat.eqb_eq. tauto.
Qed.

Lemma identifier_layer fd (m : gmap string string) :
  (if falsy (swiftCode fd) then <["swiftCode" := "SWIFT code is required"]> m
   else if negb (includes [8; 11] (String.length (swiftCode fd)))
        then <["swiftCode" := "SWIFT code must be either 8 or 11 characters long"]> m
        else if negb (test pattern (swiftCode fd))
             then <["swiftCode" := "Invalid SWIFT code format"]> m
             else m)
  = report "swiftCode" (identifier_rule fd) m.
Proof.
  unfold identifier_rule. rewrite falsy_decide. case_decide; [done|].
  destruct (includes [8; 11] _) eqn:Hlen; cbn [negb].
  - apply includes_8_11 in Hlen. case_decide; [|done].
    by destruct (test pattern _).
  - case_decide as Hok; [|done]. apply includes_8_11 in Hok. congruence.
Qed.

Lemma headquarters_layer fd (m : gmap string string) :
  (if (String.length (swiftCode fd) =? 11)%nat && endsWith (swiftCode fd) "XXX"
      && negb (isHeadquarter fd)
   then <["isHeadquarter" := "SWIFT codes ending with XXX must be headquarters"]> m
   else if isHeadquarter fd
           && (negb (endsWith (swiftCode fd) "XXX")
               || negb (String.length (swiftCode fd) =? 11)%nat)
        then <["isHeadquarter" := "Only SWIFT codes ending with XXX can be headquarters"]> m
        else m)
  = report "isHeadquarter" (headquarters_rule fd) m.
Proof.
  unfold headquarters_rule, headquarters_code.
  destruct (String.length (swiftCode fd) =? 11)%nat, (endsWith _ _), (isHeadquarter fd);
    reflexivity.
Qed.

Lemma address_layer fd (m : gmap string string) :
  (if falsy (address fd) then <["address" := "Address is required"]> m else m)
  = report "address" (address_rule fd) m.
Proof. unfold address_rule. rewrite falsy_decide. by case_decide. Qed.

Lemma country_code_layer fd (m : gmap string string) :
  (if falsy (countryISO2 fd) then <["countryISO2" := "Country code is required"]> m
   else if negb (String.length (countryISO2 fd) =? 2)%nat
        then <["countryISO2" := "Country code must be exactly 2 characters"]> m
        else if negb (test letters_only (countryISO2 fd))
             then <["countryISO2" := "Country code must contain only letters"]> m
             else m)
  = report "countryISO2" (country_code_rule fd) m.
Proof.
  unfold country_code_rule. rewrite falsy_decide. case_decide; [done|].
  destruct (String.length (countryISO2 fd) =? 2)%nat eqn:Hlen; cbn [negb].
  - apply Nat.eqb_eq in Hlen. case_decide; [|done].
    by destruct (test letters_only _).
  - apply Nat.eqb_neq in Hlen. by case_decide.
Qed.

Lemma country_name_layer fd (m : gmap string string) :
  (if falsy (countryName fd) then <["countryName" := "Country name is required"]> m
   else m)
  = report "countryName" (country_name_rule fd) m.
Proof. unfold country_name_rule. rewrite falsy_decide. by case_decide. Qed.

(** [validateForm] files the verdict of every field, one after the other. *)
Lemma validateForm_layers fd :
  validateForm fd =
    report "countryName" (country_name_rule fd)
      (report "countryISO2" (country_code_rule fd)
         (report "address" (address_rule fd)
            (report "isHeadquarter" (headquarters_rule fd)
               (report "swiftCode" (identifier_rule fd) ∅)))).
Proof.
  unfold validateForm. cbv zeta.
  by rewrite identifier_layer, headquarters_layer, address_layer,
    country_code_layer, country_name_layer.
Qed.

Lemma lookup_report_eq k o (m : gmap string string) :
  report k o m !! k = match o with Some why => Some why | None => m !! k end.
Proof. destruct o; cbn; [apply lookup_insert_eq | done]. Qed.

Lemma lookup_report_ne k k' o (m : gmap string string) :
  k ≠ k' → report k o m !! k' = m !! k'.
Proof. intros. destruct o; cbn; [by apply lookup_insert_ne | done]. Qed.

Ltac lookup_layers :=
  rewrite validateForm_layers;
  repeat first
    [ rewrite lookup_report_ne by done
    | rewrite lookup_report_eq
    | rewrite lookup_empty ].

Lemma validateForm_swiftCode fd : validateForm fd !! "swiftCode" = identifier_rule fd.
Proof. lookup_layers. by destruct (identifier_rule fd). Qed.

Lemma validateForm_isHeadquarter fd :
  validateForm fd !! "isHeadquarter" = headquarters_rule fd.
Proof. lookup_layers. by destruct (headquarters_rule fd). Qed.

Lemma validateForm_address fd : validateForm fd !! "address" = address_rule fd.
Proof. lookup_layers. by destruct (address_rule fd). Qed.

Lemma validateForm_countryISO2 fd :
  validateForm fd !! "countryISO2" = country_code_rule fd.
Proof. lookup_layers. by destruct (country_code_rule fd). Qed.

Lemma validateForm_countryName fd :
  validateForm fd !! "countryName" = country_name_rule fd.
Proof. lookup_layers. by destruct (country_name_rule fd). Qed.

Lemma validateForm_other fd (k : string) :
  k ∉ ["swiftCode"; "isHeadquarter"; "address"; "countryISO2"; "countryName"] →
  validateForm fd !! k = None.
Proof.
  intros Hk. rewrite !not_elem_of_cons in Hk. destruct Hk as (?&?&?&?&?&_).
  by lookup_layers.
Qed.

(** Nothing is reported exactly when no rule is violated. *)
Lemma validateForm_empty fd :
  validateForm fd = ∅ ↔
  identifier_rule fd = None ∧ headquarters_rule fd = None ∧ address_rule fd = None
  ∧ country_code_rule fd = None ∧ country_name_rule fd = None.
Proof.
  split.
  - intros E.
    rewrite <- validateForm_swiftCode, <- validateForm_isHeadquarter,
      <- validateForm_address, <- validateForm_countryISO2, <- validateForm_countryName.
    rewrite E. by rewrite !lookup_empty.
  - intros (H1 & H2 & H3 & H4 & H5). apply map_eq. intros k. rewrite lookup_empty.
    destruct (decide (k ∈ ["swiftCode"; "isHeadquarter"; "address"; "countryISO2";
                           "countryName"]))
      as [Hin | Hout]; [| by apply validateForm_other].
    rewrite !elem_of_cons in Hin.
    destruct Hin as [-> | [-> | [-> | [-> | [-> | Hin]]]]].
    + by rewrite validateForm_swiftCode.
    + by rewrite validateForm_isHeadquarter.
    + by rewrite validateForm_address.
    + by rewrite validateForm_countryISO2.
    + by rewrite validateForm_countryName.
    + by apply elem_of_nil in Hin.
Qed.

(** Unfolding of the combinators of asynchronous code. *)
Ltac js_unfold :=
  cbv [Js.trace Js.run mbind mret Js.async_bind Js.async_ret Js.bind Js.ret Js.throw
       Js.try_catch Js.request Js.effect fst snd
       ApiService.createSwiftCode ApiService.apiClient_post
       ApiService.fetchSwiftCodesCount ApiService.apiClient_get
       UploadApiService.checkUploadApiHealth UploadApiService.uploadApiClient_get].

(** [handleSubmit] sends nothing as soon as a rule is violated. *)
Lemma handleSubmit_rejects st srv :
  validateForm (formData st) ≠ ∅ →
  Js.trace (handleSubmit st) srv = []
  ∧ Js.run (handleSubmit st) srv
    = Js.Return (setValidationErrors (Some <$> validateForm (formData st)) st).
Proof.
  intros Hne. unfold handleSubmit.
  destruct (0 <? size (validateForm (formData st)))%nat eqn:Hsz; [done|].
  apply Nat.ltb_ge in Hsz. destruct Hne. apply map_size_empty_iff. lia.
Qed.

(** What [handleSubmit] sends once every rule passes: one POST of the form. *)
Lemma handleSubmit_accepts st srv :
  validateForm (formData st) = ∅ →
  let post :=
    Js.mkRequest Js.POST "/api/v1/swift-code/" [] (to_json (formData st)) in
  Js.trace (handleSubmit st) srv =
    match srv post with
    | Js.Return _ => [Js.Http post; Js.Navigate "/"]
    | Js.Throw e =>
        [Js.Http post; Js.ConsoleError "Error creating SWIFT code:";
         Js.ConsoleError (Js.message e)]
    end.
Proof.
  intros E post. unfold handleSubmit. rewrite E, map_size_empty.
  change (0 <? 0)%nat with false. cbv iota.
  subst post. js_unfold. cbn. by destruct (srv _).
Qed.

Lemma identifier_rule_passes fd :
  identifier_rule fd = None ↔
  swiftCode fd ≠ ""
  ∧ (String.length (swiftCode fd) = 8 ∨ String.length (swiftCode fd) = 11)
  ∧ swift_format (swiftCode fd).
Proof.
  unfold identifier_rule. split.
  - repeat case_decide; try done.
    destruct (test pattern _) eqn:Hp; [|done].
    intros _. auto using test_pattern_sound.
  - intros (Hne & Hlen & Hfmt). apply test_pattern_complete in Hfmt.
    repeat case_decide; try done. by rewrite Hfmt.
Qed.

Lemma loop_upper n s :
  (String.length s ≤ n)%nat →
  loop (fun k' => rmatch (Class upper) k') n at_end s = all_chars is_upper s.
Proof.
  revert s. induction n as [|n IH]; intros [|c s] Hn; cbn in Hn; try lia; try done.
  cbn -[in_class]. rewrite in_class_upper, IH by lia. done.
Qed.

(** [/^[A-Z]+$/] holds of the non-empty strings of upper-case letters. *)
Lemma test_letters_only s :
  test letters_only s = true ↔ s ≠ "" ∧ all_chars is_upper s = true.
Proof.
  unfold test, letters_only. destruct s as [|c s].
  - cbn. split; [done | by intros [? _]].
  - cbn -[in_class loop String.length]. rewrite in_class_upper, loop_upper.
    + cbn. split; [by intros H | by intros [_ H]].
    + cbn. lia.
Qed.

Lemma country_code_rule_passes fd :
  country_code_rule fd = None ↔
  String.length (countryISO2 fd) = 2 ∧ all_chars is_upper (countryISO2 fd) = true.
Proof.
  unfold country_code_rule. split.
  - repeat case_decide; try done.
    destruct (test letters_only _) eqn:Ht; [|done].
    apply test_letters_only in Ht as [_ Ht]. done.
  - intros [Hlen Hall]. case_decide as Hempty.
    + rewrite Hempty in Hlen. discriminate Hlen.
    + case_decide; [|done].
      by rewrite (proj2 (test_letters_only (countryISO2 fd)) (conj Hempty Hall)).
Qed.

(** C1: [validateForm] lets a row through only if its identifier is
    present, is 8 or 11 characters long and has the format of four letters,
    two letters, two letters or digits and an optional branch of three
    letters or digits (the regular expression [pattern]); a row whose
    identifier breaks the length or the format gets a [swiftCode] error and
    [handleSubmit] sends no request for it. *)
Theorem C1_identifier_gate (st : State) (srv : Js.Server) :
  let code := swiftCode (formData st) in
  let well_formed :=
    code ≠ "" ∧ (String.length code = 8 ∨ String.length code = 11)
    ∧ test pattern code = true ∧ swift_format code in
  (validateForm (formData st) = ∅ → well_formed)
  ∧ (∀ r, Js.Http r ∈ Js.trace (handleSubmit st) srv → well_formed)
  ∧ (¬ well_formed →
     is_Some (validateForm (formData st) !! "swiftCode")
     ∧ Js.trace (handleSubmit st) srv = []).
Proof.
  intros code well_formed.
  assert (Hpass : identifier_rule (formData st) = None → well_formed).
  { intros H. apply identifier_rule_passes in H as (Hne & Hlen & Hfmt).
    unfold well_formed, code. auto using test_pattern_complete. }
  assert (Hsent : validateForm (formData st) ≠ ∅ → Js.trace (handleSubmit st) srv = []).
  { intros H. by apply handleSubmit_rejects. }
  split; [|split].
  - intros E. apply Hpass. by apply validateForm_empty in E as [? _].
  - intros r Hr. apply Hpass.
    destruct (decide (validateForm (formData st) = ∅)) as [E | Hne].
    + by apply validateForm_empty in E as [? _].
    + rewrite (Hsent Hne) in Hr. by apply elem_of_nil in Hr.
  - intros Hbad.
    assert (Hrule : identifier_rule (formData st) ≠ None) by (intros H; auto).
    rewrite validateForm_swiftCode. split.
    + by destruct (identifier_rule (formData st)).
    + apply Hsent. intros E. by apply validateForm_empty in E as [? _].
Qed.

Lemma C1_identifier_gate_witness :
  (swiftCode deutsche_bank ≠ ""
   ∧ (String.length (swiftCode deutsche_bank) = 8
      ∨ String.length (swiftCode deutsche_bank) = 11)
   ∧ test pattern (swiftCode deutsche_bank) = true
   ∧ swift_format (swiftCode deutsche_bank))
  ∧ (is_Some (validateForm short_code !! "swiftCode")
     ∧ Js.trace (handleSubmit (page short_code)) accepting_server = []).
Proof.
  split.
  - apply (C1_identifier_gate (page deutsche_bank) accepting_server).
    vm_compute. reflexivity.
  - apply (C1_identifier_gate (page short_code) accepting_server).
    cbn. intros (_ & [H | H] & _); discriminate H.
Defined.

(** ** The headquarters flag *)

Lemma headquarters_rule_agrees fd :
  headquarters_rule fd = None ↔ isHeadquarter fd = headquarters_code (swiftCode fd).
Proof.
  unfold headquarters_rule.
  destruct (headquarters_code _), (isHeadquarter fd); split; congruence.
Qed.

Lemma substring_full s : substring 0 (String.length s) s = s.
Proof. induction s as [|c s IH]; cbn; [done | by rewrite IH]. Qed.

Lemma substring_app_suffix p suf :
  substring (String.length p) (String.length suf) (p +:+ suf) = suf.
Proof.
  induction p as [|c p IH].
  - change ("" +:+ suf) with suf. apply substring_full.
  - exact IH.
Qed.

Lemma substring_cut n s :
  (n ≤ String.length s)%nat →
  s = substring 0 n s +:+ substring n (String.length s - n) s.
Proof.
  revert n. induction s as [|c s IH]; intros [|n] Hn; cbn in Hn; try lia.
  - done.
  - change (String.length (String c s) - 0) with (String.length (String c s)).
    by rewrite substring_full.
  - change (String c s = String c (substring 0 n s +:+ substring n (String.length s - n) s)).
    f_equal. apply IH. lia.
Qed.

(** [s.endsWith(suffix)] holds exactly of the strings [prefix + suffix]. *)
Lemma endsWith_spec s suffix :
  endsWith s suffix = true ↔ ∃ prefix, s = prefix +:+ suffix.
Proof.
  unfold endsWith. rewrite andb_true_iff, Nat.leb_le, String.eqb_eq. split.
  - intros [Hle Hsub].
    exists (substring 0 (String.length s - String.length suffix) s).
    pose proof (substring_cut (String.length s - String.length suffix) s) as Hcut.
    replace (String.length s - (String.length s - String.length suffix))
      with (String.length suffix) in Hcut by lia.
    rewrite Hsub in Hcut. apply Hcut. lia.
  - intros [prefix ->]. rewrite string_length_app. split; [lia|].
    replace (String.length prefix + String.length suffix - String.length suffix)
      with (String.length prefix) by lia.
    apply substring_app_suffix.
Qed.

Lemma headquarters_code_spec code :
  headquarters_code code = true ↔
  String.length code = 11 ∧ ∃ prefix, code = prefix +:+ "XXX".
Proof.
  unfold headquarters_code. by rewrite andb_true_iff, Nat.eqb_eq, endsWith_spec.
Qed.

(** C6, as stated, fails: [two_violations] breaks the identifier rule and
    the address rule; the first violated rule is the identifier's, yet the
    address is reported along with it. *)
Lemma C6_counterexample :
  first_violation (rules_in_order two_violations)
    = Some ("swiftCode", "SWIFT code is required")
  ∧ validateForm two_violations !! "address" = Some "Address is required"
  ∧ ¬ first_failure_wins two_violations.
Proof.
  split; [reflexivity|]. split; [by vm_compute|].
  unfold first_failure_wins. intros E.
  assert (H : validateForm two_violations !! "address"
              = ({[ "swiftCode" := "SWIFT code is required" ]} : gmap string string)
                  !! "address")
    by (by rewrite E).
  rewrite validateForm_address in H. by vm_compute in H.
Qed.

(** C6, amended: the rules of one field are applied in order and the first
    violated one gives the reason reported for that field (identifier:
    presence, length, format; headquarters flag; country code: presence,
    length, letters only); the fields are judged independently and every
    field with a violated rule is reported, not the first one alone. *)
Theorem C6_every_field_reported (fd : FormData) :
  validateForm fd !! "swiftCode" = identifier_rule fd
  ∧ validateForm fd !! "isHeadquarter" = headquarters_rule fd
  ∧ validateForm fd !! "countryISO2" = country_code_rule fd
  ∧ validateForm fd !! "countryName" = country_name_rule fd
  ∧ validateForm fd !! "address" = address_rule fd
  ∧ (∀ field : string,
       field ∉ map fst (rules_in_order fd) → validateForm fd !! field = None).
Proof.
  repeat split;
    auto using validateForm_swiftCode, validateForm_isHeadquarter,
      validateForm_countryISO2, validateForm_countryName, validateForm_address.
  intros field Hf. apply validateForm_other. cbn in Hf.
  rewrite !not_elem_of_cons in *. tauto.
Qed.

(** ** The services *)

Section Services.
Import Js ApiService UploadApiService.

(** C10: [checkUploadApiHealth] never throws; it returns [true] exactly
    when the request to [/health] completes with status 200, and [false]
    whenever the request fails. *)
Theorem C10_health_never_throws (srv : Server) :
  ∃ healthy : bool,
    run checkUploadApiHealth srv = Return healthy
    ∧ (healthy = true ↔
       ∃ resp, srv health_request = Return resp ∧ status resp = 200%Z)
    ∧ (∀ e, srv health_request = Throw e → healthy = false).
Proof.
  js_unfold. fold health_request.
  destruct (srv health_request) as [resp | e] eqn:Hsrv; cbn.
  - exists (status resp =? 200)%Z. split; [done|]. split; [|done].
    rewrite Z.eqb_eq. split.
    + intros H. by exists resp.
    + intros (resp' & [= <-] & H). done.
  - exists false. split; [done|]. split; [|done].
    split; [done|]. by intros (resp' & [=] & _).
Qed.

(** The error of the count endpoint is swallowed: what
    [fetchSwiftCodesCount] does afterwards depends on the listing alone. *)
Lemma fetchSwiftCodesCount_fallback (srv : Server) params e :
  srv (count_request params) = Throw e →
  run (fetchSwiftCodesCount params) srv =
    match srv (listing_request params) with
    | Return resp =>
        let count := array_length_or_zero (data resp) in
        Return (JObj [("count", JNum (if (count <? 1000)%Z then count else 1000%Z))])
    | Throw e' => Throw e'
    end.
Proof.
  intros Hcount. js_unfold. fold (count_request params). rewrite Hcount.
  fold (listing_request params). by destruct (srv (listing_request params)).
Qed.

(** The requests and the console output of the fallback, in order. *)
Lemma fetchSwiftCodesCount_fallback_trace (srv : Server) params e resp :
  srv (count_request params) = Throw e →
  srv (listing_request params) = Return resp →
  trace (fetchSwiftCodesCount params) srv =
    [Http (count_request params);
     ConsoleLog "Count endpoint not available, estimating count...";
     Http (listing_request params)].
Proof.
  intros Hcount Hlist. js_unfold. fold (count_request params). rewrite Hcount.
  fold (listing_request params). by rewrite Hlist.
Qed.

(** C8: when the request to the count endpoint throws,
    [fetchSwiftCodesCount] does not propagate that error: it lists the
    records with limit 1000 and, with [n] the number of records of the
    answer, returns [{count: n}] when [n < 1000] and [{count: 1000}]
    otherwise. *)
Theorem C8_count_estimated (srv : Server) (params : CountParams) (e : Error)
        (resp : Response) (records : list Json) :
  srv (count_request params) = Throw e →
  srv (listing_request params) = Return resp →
  data resp = JArr records →
  let n := Z.of_nat (length records) in
  trace (fetchSwiftCodesCount params) srv =
    [Http (count_request params);
     ConsoleLog "Count endpoint not available, estimating count...";
     Http (mkRequest GET "/api/v1/swift-code/"
             (queryParams params ++ [("limit", "1000"); ("skip", "0")])%list JNull)]
  ∧ ((n < 1000)%Z →
     run (fetchSwiftCodesCount params) srv = Return (JObj [("count", JNum n)]))
  ∧ ((1000 <= n)%Z →
     run (fetchSwiftCodesCount params) srv = Return (JObj [("count", JNum 1000)])).
Proof.
  intros Hcount Hlist Hdata n. split.
  - by rewrite (fetchSwiftCodesCount_fallback_trace srv params e resp).
  - rewrite (fetchSwiftCodesCount_fallback srv params e Hcount), Hlist. cbn zeta.
    rewrite Hdata. cbn [array_length_or_zero]. fold n.
    split; intros Hn.
    + by rewrite (proj2 (Z.ltb_lt n 1000) Hn).
    + by rewrite (proj2 (Z.ltb_ge n 1000) Hn).
Qed.

Lemma C8_count_estimated_witness :
  run (fetchSwiftCodesCount Samples.every_record) Samples.no_count_endpoint
  = Return (JObj [("count", JNum 3)]).
Proof.
  refine (proj1 (proj2 (C8_count_estimated Samples.no_count_endpoint
                          Samples.every_record _ _ _ eq_refl eq_refl eq_refl)) _).
  reflexivity.
Defined.

(** An answer of the listing that is not an array counts for no record. *)
Lemma fetchSwiftCodesCount_not_an_array (srv : Server) params e resp :
  srv (count_request params) = Throw e →
  srv (listing_request params) = Return resp →
  (∀ records, data resp ≠ JArr records) →
  run (fetchSwiftCodesCount params) srv = Return (JObj [("count", JNum 0)]).
Proof.
  intros Hcount Hlist Hdata.
  rewrite (fetchSwiftCodesCount_fallback srv params e Hcount), Hlist. cbn zeta.
  destruct (data resp) eqn:E; try done. by destruct (Hdata items).
Qed.

(** A listing that fails in its turn does make the function throw. *)
Lemma fetchSwiftCodesCount_listing_fails (srv : Server) params e e' :
  srv (count_request params) = Throw e →
  srv (listing_request params) = Throw e' →
  run (fetchSwiftCodesCount params) srv = Throw e'.
Proof.
  intros Hcount Hlist.
  by rewrite (fetchSwiftCodesCount_fallback srv params e Hcount), Hlist.
Qed.

End Services.

(** ** The progress bar *)

Section Progress.
Import Number UploadStatus.

Lemma calculateProgress_pending snap :
  status snap = "pending" → calculateProgress (Some snap) = of_Z 0.
Proof. intros H. unfold calculateProgress. by rewrite H. Qed.

Lemma calculateProgress_terminal snap :
  status snap = "completed" ∨ status snap = "failed" →
  calculateProgress (Some snap) = of_Z 100.
Proof. intros [H | H]; unfold calculateProgress; by rewrite H. Qed.

Lemma calculateProgress_no_total snap :
  status snap = "processing" → total_records snap = 0%Z →
  calculateProgress (Some snap) = of_Z 50.
Proof. intros H H0. unfold calculateProgress. by rewrite H, H0. Qed.

(** For a job in progress of at most 100 rows, the progress shown is the
    exact percentage or one below it, between 0 and 100. *)
Lemma calculateProgress_close_upto_100 : progress_close_upto 100 = true.
Proof. by vm_compute. Qed.

(** C9: at 29 rows out of 100 the division and the multiplication in
    binary64 give 28.999999999999996, and [calculateProgress] returns 28
    where floor (100 * 29 / 100) is 29. *)
Theorem C9_progress_one_below :
  mul (div (of_Z 29) (of_Z 100)) (of_Z 100)
    = S754_finite false 8162774324609023 (-48)
  ∧ calculateProgress (Some Samples.job_29_of_100) = of_Z 28
  ∧ to_Z (calculateProgress (Some Samples.job_29_of_100)) = Some 28%Z
  ∧ exact_percentage Samples.job_29_of_100 = 29%Z.
Proof. by vm_compute. Qed.

End Progress.

(** ** The worker of the upload service *)

Section WorkerProperties.
Import UploadService.

Context {Registry : Type}.
Variable attempt : NormalizedRecord → Registry → Outcome * Registry.
Variable validate : RawRow → ValidationOutcome.
Variable row_identifier : RawRow → string.
Variables retries threshold : nat.

Local Abbreviation step := (step attempt validate row_identifier retries threshold).
Local Abbreviation run := (run attempt validate row_identifier retries threshold).
Local Abbreviation process_row :=
  (process_row attempt validate row_identifier retries threshold).
Local Abbreviation transition :=
  (transition attempt validate row_identifier retries threshold).

Lemma counters_le_refl j : counters_le j j.
Proof. unfold counters_le. lia. Qed.

Lemma counters_le_trans j1 j2 j3 :
  counters_le j1 j2 → counters_le j2 j3 → counters_le j1 j3.
Proof. unfold counters_le. lia. Qed.

(** One row moves exactly one counter by one and leaves the status alone,
    unless the threshold of unreachable records is passed. *)
Lemma process_row_job row rest n (w : Worker Registry) :
  let w' := process_row row rest n w in
  (handled (job w') = S (handled (job w)) ∧ total_records (job w') = total_records (job w)
   ∧ counters_le (job w) (job w'))
  ∧ ((phase w' = Draining rest 0 ∨ phase w' = Draining rest n
      ∨ phase w' = Draining rest (S n))
     ∧ status (job w') = status (job w)
     ∨ phase w' = Stopped ∧ status (job w') = Failed
       ∧ message (job w') = registry_unavailable).
Proof.
  unfold UploadService.process_row, handled, counters_le.
  destruct (validate row) as [record | why];
    [destruct (submit attempt retries record (registry w)) as [[] reg'] |];
    try destruct (threshold <? S n)%nat; cbn; (split; [lia | auto 8]).
Qed.

Lemma initial_consistent (w : Worker Registry) : initial w → consistent w.
Proof. intros (job_id & name & now & file & reg & ->). by cbn. Qed.

Lemma step_consistent (w w' : Worker Registry) :
  consistent w → step w = Some w' → consistent w'.
Proof.
  unfold consistent, UploadService.step.
  destruct (phase w) as [| | rows n |] eqn:Hphase.
  - intros (Hs & Hh & Ht) [= <-]. cbn. auto.
  - intros (Hs & Hh & Ht).
    destruct (source w) as [[|row rows] |]; intros [= <-]; cbn.
    + right. left. unfold handled in *. cbn. repeat split; try done.
    + unfold handled in *. cbn. split; [done | lia].
    + right. left. unfold handled in *. cbn. repeat split; try done.
  - intros (Hs & Hh). destruct rows as [|row rest]; intros [= <-].
    + cbn. left. unfold handled in *. cbn in *. split; [done | lia].
    + destruct (process_row_job row rest n w) as ((Hh' & Ht' & _) & Hp).
      cbn zeta in Hp. cbn [length] in Hh.
      destruct Hp as [(Hp & Hs') | (Hp & Hs' & Hm)].
      * destruct Hp as [Hp | [Hp | Hp]]; rewrite Hp; (split; [congruence | lia]).
      * rewrite Hp. right. right. repeat split; try done. lia.
  - done.
Qed.

Lemma step_counters (w w' : Worker Registry) :
  step w = Some w' → counters_le (job w) (job w').
Proof.
  unfold UploadService.step.
  destruct (phase w) as [| | [|row rest] n |].
  - intros [= <-]. unfold counters_le. cbn. lia.
  - destruct (source w) as [[|? ?] |]; intros [= <-]; unfold counters_le; cbn; lia.
  - intros [= <-]. unfold counters_le. cbn. lia.
  - intros [= <-]. apply process_row_job.
  - done.
Qed.

Lemma reachable_consistent (w0 w : Worker Registry) :
  initial w0 → rtc transition w0 w → consistent w.
Proof.
  intros Hinit Hsteps. apply initial_consistent in Hinit.
  induction Hsteps as [w | w1 w2 w3 H12 _ IH]; [done|].
  apply IH. by apply (step_consistent w1).
Qed.

Lemma steps_counters (w w' : Worker Registry) :
  rtc transition w w' → counters_le (job w) (job w').
Proof.
  induction 1 as [w | w1 w2 w3 H12 _ IH]; [apply counters_le_refl|].
  eapply counters_le_trans; [by apply step_counters | done].
Qed.

Lemma consistent_bound (w : Worker Registry) :
  consistent w → (handled (job w) ≤ total_records (job w))%nat.
Proof.
  unfold consistent. destruct (phase w); intros H.
  - destruct H as (_ & -> & ->). done.
  - destruct H as (_ & -> & ->). done.
  - lia.
  - destruct H as [[_ ->] | [(_ & _ & -> & ->) | (_ & _ & H)]]; done.
Qed.

Lemma run_steps n (w : Worker Registry) : rtc transition w (run n w).
Proof.
  revert w. induction n as [|n IH]; intros w; cbn; [done|].
  destruct (step w) as [w'|] eqn:Hstep; [|done].
  by eapply rtc_l; [exact Hstep | apply IH].
Qed.

Lemma step_fuel (w w' : Worker Registry) :
  step w = Some w' → (fuel w' < fuel w)%nat.
Proof.
  unfold UploadService.step, fuel.
  destruct (phase w) as [| | [|row rest] n |] eqn:Hphase.
  - intros [= <-]. cbn. lia.
  - destruct (source w) as [[|? ?] |] eqn:Hsrc; intros [= <-]; cbn; rewrite ?Hsrc; cbn; lia.
  - intros [= <-]. cbn. lia.
  - intros [= <-].
    destruct (process_row_job row rest n w) as (_ & [([Hp | [Hp | Hp]] & _) | (Hp & _)]);
      rewrite Hp; cbn; lia.
  - done.
Qed.

Lemma run_stops n (w : Worker Registry) :
  (fuel w ≤ n)%nat → phase (run n w) = Stopped.
Proof.
  revert w. induction n as [|n IH]; intros w Hfuel; cbn.
  - unfold fuel in Hfuel. destruct (phase w); try done; lia.
  - destruct (step w) as [w'|] eqn:Hstep.
    + apply IH. apply step_fuel in Hstep. lia.
    + unfold UploadService.step in Hstep.
      destruct (phase w) as [| | [|? ?] ? |]; try done.
      by destruct (source w) as [[|? ?] |].
Qed.

Lemma consistent_terminal (w : Worker Registry) :
  consistent w → (terminal (status (job w)) = true ↔ phase w = Stopped).
Proof.
  unfold consistent. destruct (phase w); intros H; split; try done.
  - destruct H as (-> & _). done.
  - destruct H as (-> & _). done.
  - destruct H as (-> & _). done.
  - intros _. by destruct H as [[-> _] | [(-> & _) | (-> & _)]].
Qed.

Lemma run_add n m (w : Worker Registry) : run (n + m) w = run m (run n w).
Proof.
  revert w. induction n as [|n IH]; intros w; cbn; [done|].
  destruct (step w) as [w'|] eqn:Hstep; [apply IH|].
  destruct m; cbn; [done | by rewrite Hstep].
Qed.

(** Every launched worker brings its job to a terminal status, within the
    number of rows of the file plus three transitions. *)
Lemma every_job_terminates (w0 : Worker Registry) :
  initial w0 →
  terminal (status (job (run (fuel w0) w0))) = true.
Proof.
  intros Hinit.
  apply consistent_terminal.
  - eapply reachable_consistent; [exact Hinit | apply run_steps].
  - by apply run_stops.
Qed.

(** C3: at every moment of the life of a job the rows processed, skipped
    and failed add up to at most [total_records], and from any moment to
    any later one none of the three counters decreases. *)
Theorem C3_counters_bounded_and_monotone (w0 w1 w2 : Worker Registry) :
  initial w0 → rtc transition w0 w1 → rtc transition w1 w2 →
  (processed (job w1) + skipped (job w1) + failed (job w1) ≤ total_records (job w1))%nat
  ∧ (processed (job w1) ≤ processed (job w2))%nat
  ∧ (skipped (job w1) ≤ skipped (job w2))%nat
  ∧ (failed (job w1) ≤ failed (job w2))%nat.
Proof.
  intros Hinit H01 H12. split.
  - apply (consistent_bound w1). by apply (reachable_consistent w0).
  - by apply steps_counters.
Qed.

(** C4: once the status of a job is completed or failed, the three
    counters add up to [total_records], unless the job was given up because
    the registry was unreachable: then the sum may be below the total and
    the message is "registry unavailable". *)
Theorem C4_terminal_totals (w0 w : Worker Registry) :
  initial w0 → rtc transition w0 w →
  terminal (status (job w)) = true →
  (processed (job w) + skipped (job w) + failed (job w) = total_records (job w))%nat
  ∨ (status (job w) = Failed ∧ message (job w) = registry_unavailable
     ∧ (processed (job w) + skipped (job w) + failed (job w)
        < total_records (job w))%nat).
Proof.
  intros Hinit Hsteps Hterm.
  pose proof (reachable_consistent w0 w Hinit Hsteps) as Hc.
  apply (consistent_terminal w Hc) in Hterm.
  unfold consistent in Hc. rewrite Hterm in Hc. fold (handled (job w)).
  destruct Hc as [[_ H] | [(_ & _ & -> & ->) | (Hs & Hm & Hle)]]; auto.
  destruct (decide (handled (job w) = total_records (job w))); [by left|].
  right. repeat split; auto. lia.
Qed.

(** No transition changes the identifier or the filename of a job. *)
Lemma step_identity (w w' : Worker Registry) :
  step w = Some w' → id (job w') = id (job w) ∧ filename (job w') = filename (job w).
Proof.
  unfold UploadService.step.
  destruct (phase w) as [| | [|row rest] n |].
  - by intros [= <-].
  - destruct (source w) as [[|? ?] |]; by intros [= <-].
  - by intros [= <-].
  - intros [= <-]. unfold UploadService.process_row.
    destruct (validate row) as [record | why];
      [destruct (submit attempt retries record (registry w)) as [[] reg'] |];
      try destruct (threshold <? S n)%nat; done.
  - done.
Qed.

Lemma steps_identity (w w' : Worker Registry) :
  rtc transition w w' → id (job w') = id (job w) ∧ filename (job w') = filename (job w).
Proof.
  induction 1 as [w | w1 w2 w3 H12 _ [IH1 IH2]]; [done|].
  apply step_identity in H12 as [H1 H2]. split; congruence.
Qed.

(** C7: for every request that carries a file, whatever the file holds
    and whatever the state of the registry, [submitUpload] returns the
    handle (identifier, filename, status pending, message) with the
    background worker not yet started and the registry untouched; the
    handle names the job at every later moment; a failed status or an error
    detail is seen by [getStatus] only after the worker has made a
    transition of its own; the worker does bring the job to a terminal
    status, and a file that cannot be read fails the job there, not the
    submission.  A request without a file fails at once. *)
Theorem C7_handle_before_processing (job_id : string) (now : nat) (file : UploadFile)
        (reg : Registry) :
  ∃ w0 : Worker Registry,
    submitUpload job_id now (Some file) reg
      = Some (mkHandle job_id (file_name file) Pending "upload accepted", w0)
    ∧ phase w0 = NotStarted ∧ registry w0 = reg
    ∧ getStatus w0 = create job_id (file_name file) now
    ∧ (∀ w, rtc transition w0 w →
         id (getStatus w) = job_id ∧ filename (getStatus w) = file_name file
         ∧ (status (getStatus w) = Failed ∨ error_details (getStatus w) ≠ [] →
            ∃ w1, transition w0 w1 ∧ rtc transition w1 w))
    ∧ terminal (status (getStatus (run (fuel w0) w0))) = true
    ∧ (file_rows file = None →
         status (getStatus (run (fuel w0) w0)) = Failed
         ∧ message (getStatus (run (fuel w0) w0)) = "file unreadable")
    ∧ submitUpload job_id now None reg = None.
Proof.
  exists (launch (create job_id (file_name file) now) (file_rows file) reg).
  split; [reflexivity|]. split; [reflexivity|]. split; [reflexivity|].
  split; [reflexivity|]. split; [|split; [|split; [|reflexivity]]].
  - intros w Hsteps. unfold getStatus.
    destruct (steps_identity _ _ Hsteps) as [Hid Hname].
    split; [exact Hid|]. split; [exact Hname|].
    intros Hfailure. apply rtc_inv in Hsteps as [<- | Hlater]; [|exact Hlater].
    by destruct Hfailure.
  - apply every_job_terminates.
    by exists job_id, (file_name file), now, (file_rows file), reg.
  - intros Hrows. unfold getStatus, fuel, launch. cbn [source phase]. by rewrite Hrows.
Qed.

End WorkerProperties.

Section RegistryProperties.
Import UploadService.

Variable admits : NormalizedRecord → bool.
Variable validate : RawRow → ValidationOutcome.
Variable row_identifier : RawRow → string.
Variables retries threshold : nat.

Local Abbreviation step :=
  (step (registry_attempt admits) validate row_identifier retries threshold).
Local Abbreviation transition :=
  (transition (registry_attempt admits) validate row_identifier retries threshold).



End RegistryProperties.

(** ** The sample uploads *)

Section SampleUploads.
Import UploadService Samples.

Lemma first_upload_initial : initial first_upload.
Proof. by exists "job-1", "codes.csv", 0, (Some four_rows), empty_registry. Qed.

Lemma C3_counters_bounded_and_monotone_witness :
  let w1 := sample_run 4 first_upload in
  let w2 := sample_run 10 first_upload in
  (processed (job w1) + skipped (job w1) + failed (job w1) ≤ total_records (job w1))%nat
  ∧ (processed (job w1) ≤ processed (job w2))%nat
  ∧ (skipped (job w1) ≤ skipped (job w2))%nat
  ∧ (failed (job w1) ≤ failed (job w2))%nat.
Proof.
  apply (C3_counters_bounded_and_monotone
           (registry_attempt (fun _ => true)) sample_validate sample_row_identifier 2 2
           first_upload).
  - apply first_upload_initial.
  - apply run_steps.
  - unfold sample_run. change 10 with (4 + 6). rewrite run_add. apply run_steps.
Defined.

Lemma C4_terminal_totals_witness :
  let w := sample_run 10 first_upload in
  (processed (job w) + skipped (job w) + failed (job w) = total_records (job w))%nat
  ∨ (status (job w) = Failed ∧ message (job w) = registry_unavailable
     ∧ (processed (job w) + skipped (job w) + failed (job w)
        < total_records (job w))%nat).
Proof.
  apply (C4_terminal_totals
           (registry_attempt (fun _ => true)) sample_validate sample_row_identifier 2 2
           first_upload).
  - apply first_upload_initial.
  - apply run_steps.
  - by vm_compute.
Defined.



End SampleUploads.

(** ** The pager of the home page *)

Section HomePagerProperties.
Import HomePager.
Local Open Scope Z_scope.
Local Open Scope list_scope.

Lemma numbers_cons s e : s <= e → numbers s e = s :: numbers (s + 1) e.
Proof.
  intros H. unfold numbers.
  replace (Z.to_nat (e - s + 1)) with (S (Z.to_nat (e - (s + 1) + 1))) by lia.
  cbn [seq map]. f_equal; [lia|].
  rewrite <- seq_shift, map_map. apply map_ext. intros i. lia.
Qed.

Lemma numbers_nil s e : e < s → numbers s e = [].
Proof. intros H. unfold numbers. by replace (Z.to_nat (e - s + 1)) with 0%nat by lia. Qed.

Lemma elem_of_numbers s e n : n ∈ numbers s e ↔ s <= n <= e.
Proof.
  unfold numbers. rewrite list_elem_of_fmap. split.
  - intros (i & -> & Hi). apply elem_of_seq in Hi. lia.
  - intros H. exists (Z.to_nat (n - s)). split; [lia|]. apply elem_of_seq. lia.
Qed.

Lemma numbers_sorted s e : StronglySorted Z.lt (numbers s e).
Proof.
  remember (Z.to_nat (e - s + 1)) as k eqn:Hk. revert s Hk.
  induction k as [|k IH]; intros s Hk.
  - rewrite numbers_nil by lia. constructor.
  - rewrite numbers_cons by lia. constructor.
    + apply IH. lia.
    + apply Forall_forall. intros n Hn. apply elem_of_numbers in Hn. lia.
Qed.

Lemma visible_range_spec cur total :
  1 <= cur <= total →
  ∃ s e, visible_range cur total = (s, e)
         ∧ 1 <= s <= cur ∧ cur <= e <= total ∧ e - s + 1 = Z.min 5 total
         ∧ (3 <= cur <= total - 2 → s = cur - 2 ∧ e = cur + 2).
Proof.
  intros H. unfold visible_range. eexists _, _. split; [reflexivity|].
  destruct (Z.eqb_spec (Z.min total (Z.max 1 (cur - 2) + 4)) total); lia.
Qed.

Lemma page_numbers_app a b : page_numbers (a ++ b) = page_numbers a ++ page_numbers b.
Proof. apply omap_app. Qed.

Lemma page_numbers_map cur l :
  page_numbers (map (fun n => PageItem n (n =? cur)) l) = l.
Proof. induction l as [|n l IH]; [done|]. cbn. f_equal. exact IH. Qed.

Lemma active_pages_app a b : active_pages (a ++ b) = active_pages a ++ active_pages b.
Proof. apply omap_app. Qed.

Lemma active_pages_cons n b l :
  active_pages (PageItem n b :: l) = if b then n :: active_pages l else active_pages l.
Proof. by destruct b. Qed.

Lemma active_pages_map cur l :
  active_pages (map (fun n => PageItem n (n =? cur)) l) = filter (fun n => n = cur) l.
Proof.
  induction l as [|n l IH]; [done|]. cbn [map]. rewrite active_pages_cons.
  destruct (Z.eqb_spec n cur) as [-> | Hne].
  - rewrite filter_cons_True by done. f_equal. exact IH.
  - rewrite filter_cons_False by done. exact IH.
Qed.

(** The page numbers shown: page 1 when the window starts later, the
    window, the last page when the window ends earlier. *)
Lemma page_numbers_render cur total :
  page_numbers (renderPagination cur total) =
    let '(s, e) := visible_range cur total in
    (if 1 <? s then [1] else []) ++ numbers s e ++ (if e <? total then [total] else []).
Proof.
  unfold renderPagination. destruct (visible_range cur total) as [s e].
  destruct (1 <? s), (2 <? s), (e <? total), (e <? total - 1);
    rewrite ?page_numbers_app, page_numbers_map; cbn [page_numbers omap app];
    rewrite ?app_nil_r; reflexivity.
Qed.

Lemma active_pages_flagged cur items :
  Forall (flagged cur) items →
  active_pages items = filter (fun n => n = cur) (page_numbers items).
Proof.
  induction 1 as [|[n b|] items Hf _ IH]; [done | |exact IH].
  cbn in Hf. subst b. rewrite active_pages_cons.
  change (page_numbers (PageItem n (n =? cur) :: items)) with (n :: page_numbers items).
  destruct (Z.eqb_spec n cur) as [-> | Hne].
  - rewrite filter_cons_True by done. by f_equal.
  - by rewrite filter_cons_False by done.
Qed.

Lemma renderPagination_flagged cur total :
  Forall (flagged cur) (renderPagination cur total).
Proof.
  unfold renderPagination. destruct (visible_range cur total) as [s e].
  assert (Hrange : Forall (flagged cur)
                     (map (fun n => PageItem n (n =? cur)) (numbers s e))).
  { apply Forall_forall. intros item Hin.
    apply list_elem_of_fmap in Hin as (n & -> & _). done. }
  destruct (1 <? s), (2 <? s), (e <? total), (e <? total - 1);
    repeat (apply Forall_app; split); try done;
    repeat constructor.
Qed.

Lemma filter_eq_fresh (x : Z) (l : list Z) :
  x ∉ l → filter (fun n => n = x) l = [].
Proof.
  induction l as [|y l IH]; intros Hx; [done|].
  apply not_elem_of_cons in Hx as [Hne Hx].
  rewrite filter_cons_False by congruence. by apply IH.
Qed.

Lemma filter_eq_sorted (x : Z) (l : list Z) :
  StronglySorted Z.lt l → x ∈ l → filter (fun n => n = x) l = [x].
Proof.
  induction 1 as [|y l Hs IH Hall]; intros Hin; [by apply elem_of_nil in Hin|].
  rewrite Forall_forall in Hall.
  destruct (decide (y = x)) as [-> | Hne].
  - rewrite filter_cons_True by done. f_equal.
    apply filter_eq_fresh. intros Hx. specialize (Hall x Hx). lia.
  - rewrite filter_cons_False by done. apply IH.
    apply elem_of_cons in Hin as [-> | Hin]; done.
Qed.

(** X1: for a current page between 1 and the number of pages, the window
    of page numbers that [renderPagination] shows lies within the pages,
    contains the current page and has five pages (all of them when there
    are fewer); away from both ends it is centred on the current page. *)
Theorem pager_window (cur total : Z) :
  1 <= cur <= total →
  let '(startPage, endPage) := visible_range cur total in
  1 <= startPage <= cur ∧ cur <= endPage <= total
  ∧ endPage - startPage + 1 = Z.min 5 total
  ∧ (3 <= cur <= total - 2 → startPage = cur - 2 ∧ endPage = cur + 2).
Proof.
  intros H. destruct (visible_range_spec cur total H) as (s & e & -> & ?). tauto.
Qed.

Lemma pager_window_witness :
  let '(startPage, endPage) := visible_range 7 9 in
  1 <= startPage <= 7 ∧ 7 <= endPage <= 9
  ∧ endPage - startPage + 1 = Z.min 5 9
  ∧ (3 <= 7 <= 9 - 2 → startPage = 7 - 2 ∧ endPage = 7 + 2).
Proof. apply (pager_window 7 9). lia. Defined.

Lemma singleton_sorted (x : Z) : StronglySorted Z.lt [x].
Proof. apply SSorted_cons; [apply SSorted_nil | apply Forall_nil_2]. Qed.

Lemma numbers_snoc s e : s <= e → numbers s e = numbers s (e - 1) ++ [e].
Proof.
  intros H. unfold numbers.
  replace (Z.to_nat (e - s + 1)) with (S (Z.to_nat (e - 1 - s + 1))) by lia.
  rewrite seq_S, map_app. cbn. do 2 f_equal. lia.
Qed.

(** What the pages shown are, for a current page within the pages. *)
Lemma page_numbers_spec (cur total : Z) :
  1 <= cur <= total →
  let pages := page_numbers (renderPagination cur total) in
  StronglySorted Z.lt pages
  ∧ head pages = Some 1 ∧ last pages = Some total
  ∧ (∀ n, n ∈ pages → 1 <= n <= total)
  ∧ cur ∈ pages.
Proof.
  intros H pages.
  assert (Hpages : ∃ s e,
             1 <= s <= cur ∧ cur <= e <= total
             ∧ pages = (if 1 <? s then [1] else []) ++ numbers s e
                       ++ (if e <? total then [total] else [])).
  { destruct (visible_range_spec cur total H) as (s & e & Hv & ? & ? & _).
    exists s, e. split; [done|]. split; [done|].
    unfold pages. by rewrite page_numbers_render, Hv. }
  destruct Hpages as (s & e & Hs & He & Hpages).
  split; [|split; [|split; [|split]]].
  - rewrite Hpages. apply StronglySorted_app_2.
    + intros x y Hx Hy.
      destruct (Z.ltb_spec 1 s); [|by apply elem_of_nil in Hx].
      apply list_elem_of_singleton in Hx. subst x.
      apply elem_of_app in Hy as [Hy | Hy].
      * apply elem_of_numbers in Hy. lia.
      * destruct (Z.ltb_spec e total); [|by apply elem_of_nil in Hy].
        apply list_elem_of_singleton in Hy. lia.
    + destruct (1 <? s); [apply singleton_sorted | apply SSorted_nil].
    + apply StronglySorted_app_2; [|apply numbers_sorted|].
      * intros x y Hx Hy. apply elem_of_numbers in Hx.
        destruct (Z.ltb_spec e total); [|by apply elem_of_nil in Hy].
        apply list_elem_of_singleton in Hy. lia.
      * destruct (e <? total); [apply singleton_sorted | apply SSorted_nil].
  - rewrite Hpages. destruct (Z.ltb_spec 1 s); [done|].
    rewrite numbers_cons by lia. cbn. f_equal. lia.
  - rewrite Hpages, !app_assoc. destruct (Z.ltb_spec e total).
    + by rewrite last_snoc.
    + rewrite app_nil_r, numbers_snoc, app_assoc, last_snoc by lia. f_equal. lia.
  - intros n Hn. rewrite Hpages in Hn.
    apply elem_of_app in Hn as [Hn | Hn]; [|apply elem_of_app in Hn as [Hn | Hn]].
    + destruct (1 <? s); [|by apply elem_of_nil in Hn].
      apply list_elem_of_singleton in Hn. lia.
    + apply elem_of_numbers in Hn. lia.
    + destruct (e <? total); [|by apply elem_of_nil in Hn].
      apply list_elem_of_singleton in Hn. lia.
  - rewrite Hpages. apply elem_of_app. right. apply elem_of_app. left.
    apply elem_of_numbers. lia.
Qed.

(** X2: for a current page between 1 and the number of pages, the page
    numbers that [renderPagination] shows are strictly increasing (no page
    twice), start at 1, end at the last page, all lie within the pages,
    and exactly one item is flagged active: the current page. *)
Theorem pager_pages (cur total : Z) :
  1 <= cur <= total →
  let pages := page_numbers (renderPagination cur total) in
  StronglySorted Z.lt pages
  ∧ head pages = Some 1 ∧ last pages = Some total
  ∧ (∀ n, n ∈ pages → 1 <= n <= total)
  ∧ active_pages (renderPagination cur total) = [cur].
Proof.
  intros H pages.
  destruct (page_numbers_spec cur total H) as (Hsorted & Hhead & Hlast & Hin & Hcur).
  repeat split; try done.
  - by apply Hin.
  - by apply Hin.
  - rewrite (active_pages_flagged cur) by apply renderPagination_flagged.
    by apply filter_eq_sorted.
Qed.

Lemma pager_pages_witness :
  let pages := page_numbers (renderPagination 7 20) in
  StronglySorted Z.lt pages
  ∧ head pages = Some 1 ∧ last pages = Some 20
  ∧ (∀ n, n ∈ pages → 1 <= n <= 20)
  ∧ active_pages (renderPagination 7 20) = [7].
Proof. apply (pager_pages 7 20). lia. Defined.

(** X3: with the current page between 1 and the number of pages, every
    control of the pager that can be clicked leaves the current page
    within these bounds; [Prev] moves one page back and [Next] one page
    forward. *)
Theorem pager_controls (cur total : Z) (c : Control) :
  1 <= cur <= total →
  clickable cur total c = true →
  1 <= onClick cur total c <= total
  ∧ (c = Prev → onClick cur total c = cur - 1)
  ∧ (c = Next → onClick cur total c = cur + 1).
Proof.
  intros H Hc. destruct c as [| | n]; cbn in *.
  - apply negb_true_iff, Z.eqb_neq in Hc. repeat split; try done; lia.
  - apply negb_true_iff, orb_false_iff in Hc as [Hc _]. apply Z.eqb_neq in Hc.
    repeat split; try done; lia.
  - apply bool_decide_eq_true in Hc.
    destruct (page_numbers_spec cur total H) as (_ & _ & _ & Hin & _).
    specialize (Hin n Hc). repeat split; try done; lia.
Qed.

Lemma pager_controls_witness :
  1 <= onClick 7 20 (Page 20) <= 20
  ∧ (Page 20 = Prev → onClick 7 20 (Page 20) = 7 - 1)
  ∧ (Page 20 = Next → onClick 7 20 (Page 20) = 7 + 1).
Proof. apply (pager_controls 7 20 (Page 20)); [lia | by vm_compute]. Defined.

End HomePagerProperties.

(** ** Searching the listing *)

Section SearchProperties.
Import Js SwiftCodeApi.

Variable toLowerCase : string → string.
Variable type_error : string.

Lemma prefix_spec t s : String.prefix t s = true ↔ ∃ rest, s = t +:+ rest.
Proof.
  revert s. induction t as [|c t IH]; intros s.
  - split; [intros _; exists s; reflexivity | intros _; by destruct s].
  - destruct s as [|c' s]; cbn.
    + split; [done | by intros [rest [=]]].
    + destruct (Ascii.ascii_dec c c') as [<- | Hne].
      * rewrite IH. split.
        -- intros [rest ->]. exists rest. reflexivity.
        -- intros [rest [= ->]]. exists rest. reflexivity.
      * split; [done|]. intros [rest [= ? _]]. done.
Qed.

(** [includes] finds exactly the occurrences of [term]. *)
Lemma includes_spec s term : includes s term = true ↔ occurs term s.
Proof.
  unfold occurs. induction s as [|c s IH].
  - cbn [includes]. rewrite orb_false_r, prefix_spec. split.
    + intros [rest ->]. exists "", rest. reflexivity.
    + intros ([|? before] & after & H); [exists after; exact H|]. discriminate H.
  - cbn [includes]. rewrite orb_true_iff, prefix_spec, IH. split.
    + intros [[rest ->] | (before & after & ->)].
      * exists "", rest. reflexivity.
      * exists (String c before), after. reflexivity.
    + intros ([|c' before] & after & H).
      * left. exists after. exact H.
      * right. injection H as _ ->. exists before, after. reflexivity.
Qed.

Lemma field_includes_string code key term s :
  get_field code key = JStr s →
  field_includes toLowerCase code key term = Some (includes (toLowerCase s) term).
Proof. intros H. unfold field_includes. by rewrite H. Qed.

(** On a record with its three text fields the callback answers, and it
    answers [true] exactly for the records that mention the term. *)
Lemma matches_well_formed term code :
  well_formed code →
  ∃ keep, matches toLowerCase term code = Some keep
          ∧ (keep = true ↔ mentions toLowerCase term code).
Proof.
  intros (c & a & n & Hc & Ha & Hn). unfold matches.
  rewrite (field_includes_string _ _ _ _ Hc), (field_includes_string _ _ _ _ Ha),
    (field_includes_string _ _ _ _ Hn).
  assert (Hmentions : mentions toLowerCase term code ↔
            includes (toLowerCase c) term = true
            ∨ includes (toLowerCase a) term = true
            ∨ includes (toLowerCase n) term = true).
  { rewrite !includes_spec. unfold mentions. split.
    - intros (key & s & Hkey & Hs & Hocc).
      rewrite !elem_of_cons in Hkey.
      destruct Hkey as [-> | [-> | [-> | Hkey]]]; [| | |by apply elem_of_nil in Hkey].
      + rewrite Hc in Hs. injection Hs as <-. auto.
      + rewrite Ha in Hs. injection Hs as <-. auto.
      + rewrite Hn in Hs. injection Hs as <-. auto.
    - intros [H | [H | H]].
      + exists "swiftCode", c. repeat split; [set_solver | done | done].
      + exists "address", a. repeat split; [set_solver | done | done].
      + exists "countryName", n. repeat split; [set_solver | done | done]. }
  destruct (includes (toLowerCase c) term) eqn:E1;
    [eexists; split; [reflexivity|]; rewrite Hmentions; tauto|].
  destruct (includes (toLowerCase a) term) eqn:E2;
    [eexists; split; [reflexivity|]; rewrite Hmentions; tauto|].
  eexists; split; [reflexivity|]. rewrite Hmentions.
  split; [tauto|]. intros [H | [H | H]]; congruence.
Qed.

Lemma filter_codes_well_formed term records :
  Forall well_formed records →
  ∃ kept, filter_codes toLowerCase term records = Some kept
          ∧ kept `sublist_of` records
          ∧ ∀ code, code ∈ kept ↔ code ∈ records ∧ mentions toLowerCase term code.
Proof.
  induction 1 as [|code records Hwf _ (kept & Hk & Hsub & Hin)]; cbn [filter_codes].
  - exists []. split; [done|]. split; [done|]. intros code.
    rewrite elem_of_nil. tauto.
  - destruct (matches_well_formed term code Hwf) as (keep & -> & Hkeep).
    rewrite Hk. eexists. split; [reflexivity|].
    destruct keep.
    + split; [by apply sublist_skip|]. intros c. rewrite !elem_of_cons, Hin.
      split; [|tauto]. intros [-> | ?]; [|tauto]. split; [by left | by apply Hkeep].
    + split; [by apply sublist_cons|]. intros c. rewrite elem_of_cons, Hin.
      split; [tauto|]. intros [[-> | ?] Hm]; [|tauto].
      apply Hkeep in Hm. discriminate Hm.
Qed.

(** One record whose [swiftCode] is not a string stops the filter. *)
Lemma filter_codes_type_error term records code :
  code ∈ records →
  (∀ s, get_field code "swiftCode" ≠ JStr s) →
  filter_codes toLowerCase term records = None.
Proof.
  intros Hin Hbad.
  assert (Hm : matches toLowerCase term code = None).
  { unfold matches, field_includes.
    destruct (get_field code "swiftCode") eqn:E; try done. by destruct (Hbad s). }
  induction records as [|c records IH]; [by apply elem_of_nil in Hin|].
  cbn [filter_codes]. apply elem_of_cons in Hin as [<- | Hin].
  - by rewrite Hm.
  - rewrite (IH Hin). by destruct (matches toLowerCase term c).
Qed.

(** X4: with a non-empty search term and a listing whose records have
    their three text fields, [fetchSwiftCodes] returns the records of the
    listing, in the order of the listing, that have the lower-cased term in
    the lower-cased [swiftCode], [address] or [countryName], and no other. *)
Theorem fetchSwiftCodes_search (srv : Server) (params : ListParams) (term : string)
        (resp : Response) (records : list Json) :
  search params = Some term → term ≠ "" →
  srv (listing_request params) = Return resp →
  data resp = JArr records →
  Forall well_formed records →
  ∃ kept,
    run (fetchSwiftCodes toLowerCase type_error params) srv = Return (JArr kept)
    ∧ kept `sublist_of` records
    ∧ ∀ code, code ∈ kept ↔
              code ∈ records ∧ mentions toLowerCase (toLowerCase term) code.
Proof.
  intros Hsearch Hterm Hsrv Hdata Hwf.
  destruct (filter_codes_well_formed (toLowerCase term) records Hwf)
    as (kept & Hk & Hsub & Hin).
  exists kept. split; [|done].
  unfold fetchSwiftCodes. js_unfold. fold (listing_request params).
  rewrite Hsrv, Hsearch, Hdata. cbn.
  destruct term; [done|]. cbn. by rewrite Hk.
Qed.

(** X5: with a non-empty search term, a listing that has a record whose
    [swiftCode] is not a string makes [fetchSwiftCodes] throw the
    [TypeError] of the filter: the record is not skipped and nothing is
    returned. *)
Theorem fetchSwiftCodes_search_type_error (srv : Server) (params : ListParams)
        (term : string) (resp : Response) (records : list Json) (code : Json) :
  search params = Some term → term ≠ "" →
  srv (listing_request params) = Return resp →
  data resp = JArr records →
  code ∈ records →
  (∀ s, get_field code "swiftCode" ≠ JStr s) →
  run (fetchSwiftCodes toLowerCase type_error params) srv
  = Throw (mkError type_error None).
Proof.
  intros Hsearch Hterm Hsrv Hdata Hin Hbad.
  unfold fetchSwiftCodes. js_unfold. fold (listing_request params).
  rewrite Hsrv, Hsearch, Hdata. cbn.
  destruct term; [done|]. cbn.
  by rewrite (filter_codes_type_error _ records code Hin Hbad).
Qed.

End SearchProperties.

Lemma fetchSwiftCodes_search_witness :
  ∃ kept,
    Js.run (SwiftCodeApi.fetchSwiftCodes PageSamples.toLowerCase_ascii
              PageSamples.not_a_function PageSamples.search_deut)
      (PageSamples.answering
         (Js.JArr [PageSamples.deutsche_record; PageSamples.chase_record]))
    = Js.Return (Js.JArr kept)
    ∧ kept `sublist_of` [PageSamples.deutsche_record; PageSamples.chase_record]
    ∧ ∀ code, code ∈ kept ↔
        code ∈ [PageSamples.deutsche_record; PageSamples.chase_record]
        ∧ SwiftCodeApi.mentions PageSamples.toLowerCase_ascii
            (PageSamples.toLowerCase_ascii "Deut") code.
Proof.
  apply (fetchSwiftCodes_search PageSamples.toLowerCase_ascii
           PageSamples.not_a_function
           (PageSamples.answering
              (Js.JArr [PageSamples.deutsche_record; PageSamples.chase_record]))
           PageSamples.search_deut "Deut"
           (Js.mkResponse 200
              (Js.JArr [PageSamples.deutsche_record; PageSamples.chase_record]))
           [PageSamples.deutsche_record; PageSamples.chase_record]).
  - reflexivity.
  - discriminate.
  - reflexivity.
  - reflexivity.
  - apply Forall_cons_2; [|apply Forall_cons_2; [|apply Forall_nil_2]].
    + exists "DEUTDEFF", "Taunusanlage 12, 60325 Frankfurt am Main", "Germany".
      repeat split; reflexivity.
    + exists "CHASUS33", "270 Park Avenue, New York", "United States".
      repeat split; reflexivity.
Defined.

Lemma fetchSwiftCodes_search_type_error_witness :
  Js.run (SwiftCodeApi.fetchSwiftCodes PageSamples.toLowerCase_ascii
            PageSamples.not_a_function PageSamples.search_deut)
    (PageSamples.answering
       (Js.JArr [PageSamples.deutsche_record; PageSamples.numbered_record]))
  = Js.Throw (Js.mkError PageSamples.not_a_function None).
Proof.
  apply (fetchSwiftCodes_search_type_error PageSamples.toLowerCase_ascii
           PageSamples.not_a_function
           (PageSamples.answering
              (Js.JArr [PageSamples.deutsche_record; PageSamples.numbered_record]))
           PageSamples.search_deut "Deut"
           (Js.mkResponse 200
              (Js.JArr [PageSamples.deutsche_record; PageSamples.numbered_record]))
           [PageSamples.deutsche_record; PageSamples.numbered_record]
           PageSamples.numbered_record).
  - reflexivity.
  - discriminate.
  - reflexivity.
  - reflexivity.
  - rewrite !elem_of_cons. right. left. reflexivity.
  - intros s. discriminate.
Defined.

(** ** The file uploader *)

Section FileUploaderProperties.
Import Js UploadApi FileUploader.

Variable toLowerCase : string → string.
Variable onUploadComplete : bool.
Variable ticks : nat.

Local Abbreviation handleSubmit := (handleSubmit toLowerCase onUploadComplete ticks).

Lemma tick_iter_small n :
  (n ≤ 8)%nat → Nat.iter n tick 0%Z = (10 * Z.of_nat n)%Z.
Proof.
  intros H. do 9 (destruct n as [|n]; [reflexivity|]). lia.
Qed.

Lemma tick_iter_large k : Nat.iter (k + 8) tick 0%Z = 80%Z.
Proof.
  induction k as [|k IH]; [reflexivity|].
  change (S k + 8)%nat with (S (k + 8)). by rewrite Nat.iter_succ, IH.
Qed.

Lemma tick_iter (n : nat) :
  Nat.iter n tick 0%Z = Z.min (10 * Z.of_nat n) 80.
Proof.
  destruct (decide (n ≤ 8)%nat) as [Hle | Hgt].
  - rewrite tick_iter_small by done. lia.
  - pose proof (tick_iter_large (n - 8)) as H.
    replace (n - 8 + 8)%nat with n in H by lia. rewrite H. lia.
Qed.

(** X6: the simulated progress climbs by ten per firing of the timer and
    stops at 80: after [n] firings from 0 it is min (10 n, 80), so it never
    shows 90 or 100 by itself. *)
Theorem progress_timer_caps_at_80 (n : nat) :
  Nat.iter n tick 0%Z = Z.min (10 * Z.of_nat n) 80
  ∧ Nat.iter n tick 0%Z ≠ 90%Z ∧ Nat.iter n tick 0%Z ≠ 100%Z
  ∧ tick (Nat.iter n tick 0%Z) = Nat.iter (S n) tick 0%Z.
Proof. rewrite Nat.iter_succ, tick_iter. repeat split; lia. Qed.

(** X7: without a file, or with a file whose lower-cased name does not end
    in [.csv], [handleSubmit] sends nothing: it only sets the error text
    and leaves every other cell, the timers and the callback alone. *)
Theorem uploader_rejects (st : State) (srv : Server) :
  file st = None
  ∨ (∃ f, file st = Some f ∧ JsString.endsWith (toLowerCase (name f)) ".csv" = false) →
  trace (handleSubmit st) srv = []
  ∧ run (handleSubmit st) srv =
      Return (mkState (file st) (isUploading st) (uploadProgress st)
                (Some (JStr (match file st with
                             | None => "Please select a file to upload"
                             | Some _ => "Only CSV files are allowed"
                             end)))
                (uploadResult st) (progressIntervals st) (uploadComplete st)).
Proof.
  unfold FileUploader.handleSubmit.
  intros [Hnone | (f & Hf & Hcsv)].
  - by rewrite Hnone.
  - by rewrite Hf, Hcsv.
Qed.

(** X8: for a file whose lower-cased name ends in [.csv], [handleSubmit]
    sends one POST with the file, never throws and ends with
    [isUploading] off. When the request succeeds the progress is 100, the
    answer is stored and passed once to [onUploadComplete], and no timer
    is left running; when it fails the error text is stored, no result is
    kept, the callback is not called, the progress stays at 80 or below,
    and the timer started for the upload is left running. *)
Theorem uploader_outcome (st : State) (srv : Server) (f : File) :
  file st = Some f →
  JsString.endsWith (toLowerCase (name f)) ".csv" = true →
  ∃ st',
    run (handleSubmit st) srv = Return st'
    ∧ isUploading st' = false
    ∧ match srv (upload_request f) with
      | Return resp =>
          trace (handleSubmit st) srv = [Http (upload_request f)]
          ∧ uploadProgress st' = 100%Z
          ∧ uploadResult st' = Some (data resp) ∧ uploadError st' = None
          ∧ progressIntervals st' = progressIntervals st
          ∧ uploadComplete st' =
              (if onUploadComplete then uploadComplete st ++ [data resp]
               else uploadComplete st)%list
      | Throw err =>
          trace (handleSubmit st) srv =
            [Http (upload_request f); ConsoleError "Error uploading SWIFT codes file:"]
          ∧ (0 <= uploadProgress st' <= 80)%Z
          ∧ uploadResult st' = None
          ∧ uploadError st' = Some (error_text err "Error uploading file")
          ∧ progressIntervals st' = S (progressIntervals st)
          ∧ uploadComplete st' = uploadComplete st
      end.
Proof.
  intros Hf Hcsv. unfold FileUploader.handleSubmit. rewrite Hf, Hcsv. cbn [negb].
  unfold uploadSwiftCodesFile. js_unfold. fold (upload_request f).
  destruct (srv (upload_request f)) as [resp | err]; cbn.
  - eexists. split; [reflexivity|]. cbn. auto 10.
  - eexists. split; [reflexivity|]. cbn. rewrite tick_iter.
    repeat split; try done; lia.
Qed.

End FileUploaderProperties.

Lemma uploader_rejects_witness :
  Js.trace (FileUploader.handleSubmit PageSamples.toLowerCase_ascii true 3
              (PageSamples.chosen PageSamples.text_file)) PageSamples.unreachable = []
  ∧ Js.run (FileUploader.handleSubmit PageSamples.toLowerCase_ascii true 3
              (PageSamples.chosen PageSamples.text_file)) PageSamples.unreachable
    = Js.Return (FileUploader.mkState (Some PageSamples.text_file) false 0
                   (Some (Js.JStr "Only CSV files are allowed")) None 0 []).
Proof.
  apply (uploader_rejects PageSamples.toLowerCase_ascii true 3
           (PageSamples.chosen PageSamples.text_file) PageSamples.unreachable).
  right. exists PageSamples.text_file. split; reflexivity.
Defined.

Lemma uploader_outcome_witness :
  ∃ st',
    Js.run (FileUploader.handleSubmit PageSamples.toLowerCase_ascii true 3
              (PageSamples.chosen PageSamples.csv_file)) PageSamples.unreachable
    = Js.Return st'
    ∧ FileUploader.isUploading st' = false
    ∧ FileUploader.uploadProgress st' = 30%Z
    ∧ FileUploader.uploadError st' = Some (Js.JStr "Network Error")
    ∧ FileUploader.progressIntervals st' = 1%nat.
Proof.
  destruct (uploader_outcome PageSamples.toLowerCase_ascii true 3
              (PageSamples.chosen PageSamples.csv_file) PageSamples.unreachable
              PageSamples.csv_file eq_refl eq_refl)
    as (st' & Hrun & Hup & _ & _ & _ & Herr & Hint & _).
  exists st'. split; [exact Hrun|]. split; [exact Hup|].
  injection Hrun as <-. repeat split; assumption.
Defined.

(** ** Polling the status of an upload *)

Section StatusPollingProperties.
Import Js UploadApi StatusPolling.

Variable onComplete : bool.
Variable type_error : string.

Local Abbreviation fetchStatus := (fetchStatus onComplete type_error).
Local Abbreviation onInterval := (onInterval onComplete type_error).

Lemma getUploadStatus_run uploadId srv :
  getUploadStatus uploadId srv =
    match srv (status_request uploadId) with
    | Return resp => ([Http (status_request uploadId)], Return (data resp))
    | Throw err =>
        ([Http (status_request uploadId);
          ConsoleError ("Error getting upload status for " +:+ uploadId +:+ ":")],
         Throw err)
    end.
Proof.
  unfold getUploadStatus. js_unfold. fold (status_request uploadId).
  by destruct (srv (status_request uploadId)).
Qed.

(** X9: [fetchStatus] never throws and always ends with [loading] off. It
    never switches polling on; polling stays as it was exactly when the
    answer is a job that is neither completed nor failed, and is off after
    a completed or failed job and after any failure. [onComplete] is
    called, once and with the answer, exactly for a completed or failed
    job. Once polling is off the timer callback sends no request and
    changes nothing. *)
Theorem polling_stops_when_done (uploadId : string) (st : State) (srv : Server) :
  let answer := srv (status_request uploadId) in
  ∃ st',
    run (fetchStatus uploadId st) srv = Return st'
    ∧ loading st' = false
    ∧ pollingActive st' = pollingActive st && keeps_polling answer
    ∧ complete st' =
        (match answer with
         | Return resp =>
             if onComplete && terminal (data resp) then complete st ++ [data resp]
             else complete st
         | Throw _ => complete st
         end)%list
    ∧ (keeps_polling answer = false →
       ∀ srv', trace (onInterval uploadId st') srv' = []
               ∧ run (onInterval uploadId st') srv' = Return st').
Proof.
  intros answer. unfold run, trace, StatusPolling.fetchStatus.
  rewrite getUploadStatus_run. subst answer.
  destruct (srv (status_request uploadId)) as [resp | err]; cbn [keeps_polling].
  - destruct (data resp) eqn:Hdata; cbn [snd];
      try (destruct (terminal _) eqn:Hterm);
      eexists; (split; [reflexivity|]); cbn;
      rewrite ?andb_false_r, ?andb_true_r;
      repeat split; try done;
      try (by destruct onComplete); try discriminate.
    all: try (by unfold terminal in Hterm).
  - eexists. split; [reflexivity|]. cbn. rewrite andb_false_r. done.
Qed.

End StatusPollingProperties.

(** ** The form of the create page *)

Section CreatePageProperties.
Import Js JsString CreatePage CreatePageControls Format Rules.

(** X10: [validateForm] reports nothing exactly for the rows with an
    identifier of the right format, a headquarters flag that is set
    exactly when the identifier has 11 characters and ends in XXX, an
    address, a country code of two upper-case letters and a country name. *)
Theorem validateForm_accepts (fd : FormData) :
  validateForm fd = ∅ ↔
  swift_format (swiftCode fd)
  ∧ (isHeadquarter fd = true ↔
     String.length (swiftCode fd) = 11 ∧ ∃ prefix, swiftCode fd = prefix +:+ "XXX")
  ∧ address fd ≠ ""
  ∧ String.length (countryISO2 fd) = 2 ∧ all_chars is_upper (countryISO2 fd) = true
  ∧ countryName fd ≠ "".
Proof.
  rewrite validateForm_empty, identifier_rule_passes, headquarters_rule_agrees,
    country_code_rule_passes, <- headquarters_code_spec.
  unfold address_rule, country_name_rule.
  split.
  - intros ((_ & _ & Hfmt) & Hhq & Ha & Hcc & Hn).
    repeat case_decide; try done. rewrite Hhq. tauto.
  - intros (Hfmt & Hhq & Ha & Hcclen & Hccup & Hn).
    repeat case_decide; try done.
    repeat split; try done.
    + intros E. apply swift_format_length in Hfmt. rewrite E in Hfmt. cbn in Hfmt. lia.
    + by apply swift_format_length.
    + destruct (isHeadquarter fd), (headquarters_code (swiftCode fd)); try done.
      * symmetry. by apply Hhq.
      * by apply Hhq.
Qed.

(** X11: once [validateForm] reports nothing, [handleSubmit] posts the form
    exactly once, never throws, keeps the form and the validation errors
    as they are and ends with [loading] off.  When the request succeeds
    it navigates to the list and the [error] cell is empty; when it fails
    it sends nothing else and does not navigate, and the [error] cell
    holds the [detail] of the answer when that is truthy (a text or not)
    and the fixed text otherwise. *)
Theorem handleSubmit_outcome (st : State) (srv : Server) :
  validateForm (formData st) = ∅ →
  let post := mkRequest POST "/api/v1/swift-code/" [] (to_json (formData st)) in
  ∃ st',
    run (handleSubmit st) srv = Return st'
    ∧ formData st' = formData st ∧ loading st' = false
    ∧ validationErrors st' = validationErrors st
    ∧ match srv post with
      | Return _ =>
          (trace (handleSubmit st) srv = [Http post; Navigate "/"] ∧ error st' = None)
      | Throw err =>
          (trace (handleSubmit st) srv =
             [Http post; ConsoleError "Error creating SWIFT code:";
              ConsoleError (message err)]
           ∧ error st' =
               Some (if truthy (error_detail err) then error_detail err
                     else JStr "Failed to create SWIFT code. Please try again later."))
      end.
Proof.
  intros E post. rewrite (handleSubmit_accepts st srv E). fold post.
  unfold handleSubmit. rewrite E, map_size_empty.
  change (0 <? 0)%nat with false. cbv iota.
  js_unfold. cbn. fold post.
  destruct (srv post) as [resp | err]; cbn.
  - eexists. split; [reflexivity|]. cbn. auto.
  - eexists. split; [reflexivity|].
    by destruct (truthy (error_detail err)).
Qed.

(** X12: choosing one of the listed countries fills in a country code and a
    country name that pass validation; any other value, the empty
    placeholder included, leaves the country name empty, which
    [validateForm] reports. *)
Theorem country_select_valid (countryCode : string) (st : State) :
  let fd := formData (handleCountrySelect countryCode st) in
  countryISO2 fd = countryCode
  ∧ (∀ name, (countryCode, name) ∈ countryOptions →
       countryName fd = name
       ∧ validateForm fd !! "countryISO2" = None
       ∧ validateForm fd !! "countryName" = None)
  ∧ (countryCode ∉ map fst countryOptions →
       countryName fd = ""
       ∧ validateForm fd !! "countryName" = Some "Country name is required").
Proof.
  intros fd.
  assert (Hfd : fd = mkFormData (swiftCode (formData st)) (address (formData st))
                       countryCode
                       (match find_country countryCode with
                        | Some c => snd c | None => "" end)
                       (isHeadquarter (formData st))).
  { unfold fd, handleCountrySelect. by destruct (has_error _ _ || has_error _ _). }
  split; [by rewrite Hfd|]. split.
  - intros name Hin. rewrite validateForm_countryISO2, validateForm_countryName, Hfd.
    unfold countryOptions in Hin. rewrite !elem_of_cons in Hin.
    repeat (destruct Hin as [[= -> ->] | Hin]; [by vm_compute|]).
    by apply elem_of_nil in Hin.
  - intros Hout. rewrite validateForm_countryName, Hfd.
    assert (Hnone : find_country countryCode = None).
    { unfold find_country. revert Hout.
      induction countryOptions as [|[c n] options IH]; intros Hout; [done|].
      cbn [List.find map fst] in *. rewrite not_elem_of_cons in Hout.
      destruct Hout as [Hne Hout].
      apply not_eq_sym, String.eqb_neq in Hne. rewrite Hne. by apply IH. }
    rewrite Hnone. done.
Qed.

Variable toUpperCase : string → string.

(** No handler unsets the flag of a headquarters identifier. *)
Lemma dispatch_flag_follows_code st ev :
  (headquarters_code (swiftCode (formData st)) = true →
   isHeadquarter (formData st) = true) →
  headquarters_code (swiftCode (formData (dispatch toUpperCase st ev))) = true →
  isHeadquarter (formData (dispatch toUpperCase st ev)) = true.
Proof.
  intros Hinv.
  destruct ev as [value | value | checked | code]; cbn [dispatch].
  - unfold handleSwiftCodeChange. by destruct (has_error _ _).
  - unfold handleChange. by destruct (has_error _ _).
  - unfold checkbox_disabled. fold (headquarters_code (swiftCode (formData st))).
    destruct (headquarters_code (swiftCode (formData st))) eqn:Hhq.
    + by rewrite Hhq.
    + unfold handleChange. destruct (has_error _ _); cbn; congruence.
  - unfold handleCountrySelect. by destruct (has_error _ _ || has_error _ _).
Qed.

(** A submission leaves the form as it is. *)
Lemma handleSubmit_formData st srv st' :
  run (handleSubmit st) srv = Return st' → formData st' = formData st.
Proof.
  unfold handleSubmit. destruct (0 <? size (validateForm (formData st)))%nat.
  - by intros [= <-].
  - js_unfold. cbn. destruct (srv _) as [resp | err]; cbn.
    + by intros [= <-].
    + destruct (truthy (error_detail err)); by intros [= <-].
Qed.

(** In every state of the page the flag of a headquarters identifier is
    set. *)
Lemma reached_flag_follows_code st :
  reached toUpperCase st →
  headquarters_code (swiftCode (formData st)) = true →
  isHeadquarter (formData st) = true.
Proof.
  induction 1 as [| st ev _ IH | st srv st' _ IH Hrun].
  - discriminate.
  - by apply dispatch_flag_follows_code.
  - by rewrite (handleSubmit_formData st srv st' Hrun).
Qed.

Lemma after_reached events : reached toUpperCase (after toUpperCase events).
Proof.
  unfold after. generalize (reached_first_render toUpperCase).
  generalize (mkState (mkFormData "" "" "" "" false) false None ∅).
  induction events as [|ev events IH]; intros st Hst; [done|].
  cbn [fold_left]. apply IH. by apply reached_edit.
Qed.

(** C2: in every state of the page (the first render, any edits through
    its controls, any submissions), a form whose identifier is 11
    characters long and ends in XXX has the headquarters flag set.  The
    flag supplied through the checkbox does not count: the checkbox fires
    nothing on such a form, and typing the identifier sets the flag
    whatever it was before.  So the headquarters rule of [validateForm]
    passes, every record sent carries the flag, and once the other rules
    pass the record sent is that of a headquarters. *)
Theorem C2_headquarters_flag (st : State) (srv : Server) :
  reached toUpperCase st →
  String.length (swiftCode (formData st)) = 11 →
  (∃ prefix, swiftCode (formData st) = prefix +:+ "XXX") →
  isHeadquarter (formData st) = true
  ∧ (∀ checked, dispatch toUpperCase st (ToggleHeadquarter checked) = st)
  ∧ (∀ value st0,
       toUpperCase value = swiftCode (formData st) →
       isHeadquarter (formData (handleSwiftCodeChange toUpperCase value st0)) = true)
  ∧ validateForm (formData st) !! "isHeadquarter" = None
  ∧ (∀ r, Http r ∈ trace (handleSubmit st) srv →
          get_field (body r) "isHeadquarter" = JBool true)
  ∧ (identifier_rule (formData st) = None → address_rule (formData st) = None →
     country_code_rule (formData st) = None → country_name_rule (formData st) = None →
     classified_headquarters st srv).
Proof.
  intros Hreached Hlen Hsuffix.
  assert (Hhq : headquarters_code (swiftCode (formData st)) = true)
    by (by apply headquarters_code_spec).
  pose proof (reached_flag_follows_code st Hreached Hhq) as Hflag.
  assert (Hrule : headquarters_rule (formData st) = None).
  { unfold headquarters_rule. by rewrite Hhq, Hflag. }
  assert (Hsent : ∀ r, Http r ∈ trace (handleSubmit st) srv →
                       r = mkRequest POST "/api/v1/swift-code/" [] (to_json (formData st))).
  { intros r Hr.
    destruct (decide (validateForm (formData st) = ∅)) as [E | Hne].
    - rewrite (handleSubmit_accepts st srv E) in Hr.
      destruct (srv _); rewrite !elem_of_cons in Hr;
        [destruct Hr as [Hr | [Hr | Hr]] | destruct Hr as [Hr | [Hr | [Hr | Hr]]]];
        try congruence; by apply elem_of_nil in Hr.
    - destruct (handleSubmit_rejects st srv Hne) as [Ht _].
      rewrite Ht in Hr. by apply elem_of_nil in Hr. }
  split; [exact Hflag|]. split; [|split; [|split; [|split]]].
  - intros checked. cbn [dispatch]. unfold checkbox_disabled.
    fold (headquarters_code (swiftCode (formData st))). by rewrite Hhq.
  - intros value st0 Hvalue.
    assert (Hfd : formData (handleSwiftCodeChange toUpperCase value st0)
                  = mkFormData (toUpperCase value) (address (formData st0))
                      (countryISO2 (formData st0)) (countryName (formData st0))
                      (headquarters_code (toUpperCase value))).
    { unfold handleSwiftCodeChange. by destruct (has_error _ _). }
    rewrite Hfd, Hvalue. exact Hhq.
  - by rewrite validateForm_isHeadquarter.
  - intros r Hr. rewrite (Hsent r Hr). cbn. by rewrite Hflag.
  - intros Hid Haddr Hcc Hname.
    assert (E : validateForm (formData st) = ∅) by (by apply validateForm_empty).
    exists (mkRequest POST "/api/v1/swift-code/" [] (to_json (formData st))).
    split; [|cbn; by rewrite Hflag].
    rewrite (handleSubmit_accepts st srv E).
    destruct (srv _); apply elem_of_cons; by left.
Qed.

(** X13: through the controls of the page the headquarters flag can never
    be left unset on an identifier of 11 characters that ends in XXX:
    from a form where that holds, and so from the empty form of the first
    render, no sequence of edits reaches a form for which [validateForm]
    reports "SWIFT codes ending with XXX must be headquarters". *)
Theorem flag_never_unset_on_headquarters (st : State) (events : list Event) :
  (headquarters_code (swiftCode (formData st)) = true →
   isHeadquarter (formData st) = true) →
  let st' := fold_left (dispatch toUpperCase) events st in
  (headquarters_code (swiftCode (formData st')) = true →
   isHeadquarter (formData st') = true)
  ∧ validateForm (formData st') !! "isHeadquarter"
    ≠ Some "SWIFT codes ending with XXX must be headquarters".
Proof.
  intros Hinv st'.
  assert (Hinv' : headquarters_code (swiftCode (formData st')) = true →
                  isHeadquarter (formData st') = true).
  { unfold st'. clear st'. revert st Hinv.
    induction events as [|ev events IH]; intros st Hinv; [done|].
    cbn [fold_left]. apply IH. by apply dispatch_flag_follows_code. }
  split; [exact Hinv'|].
  rewrite validateForm_isHeadquarter. unfold headquarters_rule.
  destruct (headquarters_code (swiftCode (formData st'))) eqn:Hhq.
  - by rewrite Hinv'.
  - by destruct (isHeadquarter (formData st')).
Qed.

End CreatePageProperties.

Lemma handleSubmit_outcome_witness :
  ∃ st',
    Js.run (CreatePage.handleSubmit (Samples.page Samples.deutsche_bank))
      Samples.accepting_server = Js.Return st'
    ∧ CreatePage.loading st' = false.
Proof.
  destruct (handleSubmit_outcome (Samples.page Samples.deutsche_bank)
              Samples.accepting_server) as (st' & Hrun & _ & Hloading & _).
  - vm_compute. reflexivity.
  - exists st'. split; assumption.
Defined.

Lemma C2_headquarters_flag_witness :
  let st := CreatePageControls.after JsString.toUpperCase_ascii
              PageSamples.typing_headquarters in
  CreatePage.swiftCode (CreatePage.formData st) = "DEUTDEFFXXX"
  ∧ CreatePage.isHeadquarter (CreatePage.formData st) = true
  ∧ CreatePageControls.dispatch JsString.toUpperCase_ascii st
      (CreatePageControls.ToggleHeadquarter false) = st
  ∧ CreatePage.validateForm (CreatePage.formData st) !! "isHeadquarter" = None.
Proof.
  intros st.
  destruct (C2_headquarters_flag JsString.toUpperCase_ascii st Samples.accepting_server)
    as (Hflag & Htoggle & _ & Hrule & _).
  - apply after_reached.
  - reflexivity.
  - exists "DEUTDEFF". reflexivity.
  - split; [reflexivity|]. split; [exact Hflag|]. split; [apply Htoggle | exact Hrule].
Defined.

Lemma flag_never_unset_on_headquarters_witness :
  let st' := CreatePageControls.after JsString.toUpperCase_ascii
               PageSamples.typing_headquarters in
  CreatePage.swiftCode (CreatePage.formData st') = "DEUTDEFFXXX"
  ∧ CreatePage.isHeadquarter (CreatePage.formData st') = true
  ∧ CreatePage.validateForm (CreatePage.formData st') !! "isHeadquarter"
    ≠ Some "SWIFT codes ending with XXX must be headquarters".
Proof.
  intros st'.
  destruct (flag_never_unset_on_headquarters JsString.toUpperCase_ascii
              (CreatePage.mkState (CreatePage.mkFormData "" "" "" "" false) false None ∅)
              PageSamples.typing_headquarters) as [Hflag Hrule].
  - discriminate.
  - split; [reflexivity|]. split; [apply Hflag; reflexivity | exact Hrule].
Defined.

(** ** The form and the validator of the collection *)

Section SchemaProperties.
Import Js RegExp CreatePage MongoInit.

(** A match stays a match when the continuation accepts more. *)
Lemma loop_mono (step : (string → bool) → string → bool) :
  (∀ k k' : string → bool, (∀ s, k s = true → k' s = true) →
     ∀ s, step k s = true → step k' s = true) →
  ∀ n (k k' : string → bool), (∀ s, k s = true → k' s = true) →
    ∀ s, loop step n k s = true → loop step n k' s = true.
Proof.
  intros Hstep. induction n as [|n IH]; intros k k' Hk s; cbn.
  - rewrite !orb_false_r. apply Hk.
  - rewrite !orb_true_iff. intros [H | H]; [left; by apply Hk | right].
    revert H. apply Hstep. by apply IH.
Qed.

Lemma rmatch_mono r :
  ∀ k k' : string → bool, (∀ s, k s = true → k' s = true) →
  ∀ s, rmatch r k s = true → rmatch r k' s = true.
Proof.
  induction r as [ranges | n r IH | r IH | r IH | r1 IH1 r2 IH2]; intros k k' Hk s; cbn.
  - destruct s as [|c s]; [done|]. rewrite !andb_true_iff. intros [? ?]. auto.
  - revert k k' Hk s. induction n as [|n IHn]; intros k k' Hk s; cbn; [apply Hk|].
    apply IH. intros s'. by apply IHn.
  - rewrite !orb_true_iff. intros [H | H]; [left; by apply (IH k) | right; by apply Hk].
  - apply IH. intros s'. apply loop_mono; [|done].
    intros k1 k2 Hk12 s''. by apply IH.
  - apply IH1. intros s'. by apply IH2.
Qed.

Lemma nonempty_length s : s ≠ "" ↔ (1 ≤ String.length s)%nat.
Proof. destruct s; cbn; split; try done; lia. Qed.

(** X14: a record that [validateForm] accepts passes the validator of the
    collection exactly when its address has at most 255 characters and its
    country name at most 100, the two bounds the form does not check;
    this for any end anchor that lets a match stop at the end of the text. *)
Theorem form_record_passes_validator (dollar : string → bool) (fd : FormData) :
  dollar "" = true →
  validateForm fd = ∅ →
  (validator dollar (to_json fd) = true ↔
   (String.length (address fd) ≤ 255)%nat ∧ (String.length (countryName fd) ≤ 100)%nat).
Proof.
  intros Hdollar Hform.
  apply validateForm_empty in Hform as (Hid & _ & Haddr & Hcc & Hname).
  apply identifier_rule_passes in Hid as (_ & Hlen & Hfmt).
  apply test_pattern_complete in Hfmt.
  apply country_code_rule_passes in Hcc as [Hcclen Hccup].
  assert (Hswift : rmatch swiftCode_pattern dollar (swiftCode fd) = true).
  { revert Hfmt. unfold test. apply rmatch_mono.
    intros [|? ?] H; [exact Hdollar | discriminate H]. }
  assert (Hcountry : rmatch countryISO2_pattern dollar (countryISO2 fd) = true).
  { destruct (countryISO2 fd) as [|c1 [|c2 [|? ?]]]; try discriminate Hcclen.
    cbn in Hccup. cbn -[in_class]. rewrite !in_class_upper.
    apply andb_prop in Hccup as [-> Hccup]. apply andb_prop in Hccup as [-> _].
    by rewrite Hdollar. }
  assert (Haddr' : (1 ≤ String.length (address fd))%nat).
  { apply nonempty_length. unfold Rules.address_rule in Haddr. by case_decide. }
  assert (Hname' : (1 ≤ String.length (countryName fd))%nat).
  { apply nonempty_length. unfold Rules.country_name_rule in Hname. by case_decide. }
  unfold validator, to_json, property.
  cbn -[rmatch swiftCode_pattern countryISO2_pattern Nat.leb].
  rewrite Hswift, Hcountry, !andb_true_r, !andb_true_iff, !Nat.leb_le. lia.
Qed.

End SchemaProperties.

Lemma form_record_passes_validator_witness :
  MongoInit.validator PageSamples.at_end_only
    (CreatePage.to_json Samples.deutsche_bank) = true.
Proof.
  apply (form_record_passes_validator PageSamples.at_end_only Samples.deutsche_bank).
  - reflexivity.
  - vm_compute. reflexivity.
  - split; vm_compute; lia.
Defined.

(** ** Loading the list of the home page *)

Section HomePageProperties.
Import Js HomePage.
Variable toLowerCase : string → string.
Variable type_error : string.
Local Abbreviation fetchSwiftCodes := (SwiftCodeApi.fetchSwiftCodes toLowerCase type_error).
Local Abbreviation load_count := (load_count type_error).
Local Abbreviation loadSwiftCodes := (loadSwiftCodes toLowerCase type_error).

Lemma run_bind {A B} (m : Async A) (f : A → Async B) srv :
  run (m ≫= f) srv =
    match run m srv with Return a => run (f a) srv | Throw e => Throw e end.
Proof.
  cbv [run mbind async_bind bind snd].
  destruct (m srv) as [t [a | e]]; [|done]. by destruct (f a srv).
Qed.

Lemma run_try_catch {A} (m : Async A) (h : Error → Async A) srv :
  run (try_catch m h) srv =
    match run m srv with Return a => Return a | Throw e => run (h e) srv end.
Proof.
  cbv [run try_catch snd].
  destruct (m srv) as [t [a | e]]; [done|]. by destruct (h e srv).
Qed.

(** The count never fails the load, and it touches [totalCount] only. *)
Lemma load_count_run st srv :
  ∃ total, run (load_count st) srv = Return (setTotalCount total st).
Proof.
  unfold HomePage.load_count. rewrite run_try_catch, run_bind.
  destruct (run (ApiService.fetchSwiftCodesCount _) srv) as [countResponse | e].
  - destruct countResponse; try (eexists; reflexivity).
    exists (totalCount st). by destruct st.
  - exists (totalCount st). by destruct st.
Qed.

(** X15: [loadSwiftCodes] never throws and ends with [loading] off, the
    page and the filters as they were.  When the listing fails, the list
    is emptied and the error shown ends with the message of the failure,
    or with "Unknown error" when that is empty; otherwise no error is
    shown and the list is the answer when it is an array and empty
    when it is anything else. *)
Theorem loadSwiftCodes_outcome (st : State) (srv : Server) :
  ∃ st',
    run (loadSwiftCodes st) srv = Return st'
    ∧ loading st' = false
    ∧ currentPage st' = currentPage st ∧ searchTerm st' = searchTerm st
    ∧ countryFilter st' = countryFilter st
    ∧ headquarterFilter st' = headquarterFilter st
    ∧ match run (fetchSwiftCodes (list_params st)) srv with
      | Return data =>
          error st' = None
          ∧ swiftCodes st' = match data with JArr items => items | _ => [] end
      | Throw err =>
          swiftCodes st' = []
          ∧ error st' =
              Some ("Failed to load SWIFT codes. Please check that the API server is running and accessible. Error details: "
                    +:+ (if JsString.falsy (message err) then "Unknown error"
                         else message err))
      end.
Proof.
  unfold HomePage.loadSwiftCodes. rewrite run_bind. cbn [run ret snd].
  rewrite run_bind.
  destruct (load_count_run (setError None (setLoading true st)) srv) as [total ->].
  rewrite run_bind, run_try_catch, run_bind.
  change (list_params (setError None (setLoading true st))) with (list_params st).
  destruct (run (fetchSwiftCodes (list_params st)) srv) as [data | err].
  - rewrite run_bind. cbn [run effect ret snd].
    eexists. split; [reflexivity|].
    destruct data as [| | | |items|]; cbn; try done.
    by destruct (_ && _).
  - rewrite run_bind. cbn [run effect ret snd]. eexists. split; [reflexivity|]. done.
Qed.

(** X16: the total of the first load is the estimate.  [loadSwiftCodes]
    tests the [totalCount] of the render that created it, so when that is
    0 and the listing answers a non-empty array, the total it leaves is
    the estimate from that one page (a full page of 10: one page more
    than the current one; a shorter page: the records up to it), whatever
    the count endpoint answered just before. *)
Theorem first_load_total_is_estimate (st : State) (srv : Server) (items : list Json) :
  totalCount st = JNum 0 →
  run (fetchSwiftCodes (list_params st)) srv = Return (JArr items) →
  items ≠ [] →
  ∃ st',
    run (loadSwiftCodes st) srv = Return st'
    ∧ swiftCodes st' = items
    ∧ totalCount st' =
        JNum (if (10 <=? Z.of_nat (length items))%Z then currentPage st * 10 + 10
              else (currentPage st - 1) * 10 + Z.of_nat (length items))%Z.
Proof.
  intros Hzero Hlist Hitems.
  unfold HomePage.loadSwiftCodes. rewrite run_bind. cbn [run ret snd].
  rewrite run_bind.
  destruct (load_count_run (setError None (setLoading true st)) srv) as [total ->].
  rewrite run_bind, run_try_catch, run_bind.
  change (list_params (setError None (setLoading true st))) with (list_params st).
  rewrite Hlist, run_bind. cbn [run effect ret snd].
  eexists. split; [reflexivity|].
  destruct items as [|item items]; [done|].
  change (totalCount (setError None (setLoading true st))) with (totalCount st).
  change (currentPage (setError None (setLoading true st))) with (currentPage st).
  rewrite Hzero. change (is_zero (JNum 0)) with true.
  rewrite (proj2 (Z.ltb_lt 0 (Z.of_nat (length (item :: items)))))
    by (cbn [length]; lia).
  done.
Qed.

(** X17: on a later load, where the [totalCount] of the render is not 0,
    the total is the [count] of the count answer when that is truthy and
    0 when the answer has none; it is left as it was when the count
    failed. *)
Theorem later_load_total_is_count (st : State) (srv : Server) :
  is_zero (totalCount st) = false →
  ∃ st',
    run (loadSwiftCodes st) srv = Return st'
    ∧ totalCount st' =
        match run (ApiService.fetchSwiftCodesCount (count_params st)) srv with
        | Return JNull | Throw _ => totalCount st
        | Return countResponse =>
            if truthy (get_field countResponse "count")
            then get_field countResponse "count" else JNum 0
        end.
Proof.
  intros Hzero.
  unfold HomePage.loadSwiftCodes. rewrite run_bind. cbn [run ret snd].
  rewrite run_bind.
  assert (Hcount : run (load_count (setError None (setLoading true st))) srv
    = Return (setTotalCount
        (match run (ApiService.fetchSwiftCodesCount (count_params st)) srv with
         | Return JNull | Throw _ => totalCount st
         | Return countResponse =>
             if truthy (get_field countResponse "count")
             then get_field countResponse "count" else JNum 0
         end) (setError None (setLoading true st)))).
  { unfold HomePage.load_count. rewrite run_try_catch, run_bind.
    change (count_params (setError None (setLoading true st))) with (count_params st).
    destruct (run (ApiService.fetchSwiftCodesCount _) srv) as [[]|];
      try done; by destruct st. }
  rewrite Hcount. clear Hcount.
  rewrite run_bind, run_try_catch, run_bind.
  change (list_params (setError None (setLoading true st))) with (list_params st).
  destruct (run (fetchSwiftCodes (list_params st)) srv) as [data | err].
  - rewrite run_bind. cbn [run effect ret snd].
    eexists. split; [reflexivity|].
    destruct data as [| | | |items|]; cbn; try done.
    change (totalCount (setError None (setLoading true st))) with (totalCount st).
    by rewrite Hzero, andb_false_r.
  - rewrite run_bind. cbn [run effect ret snd]. eexists. split; [reflexivity|]. done.
Qed.

Lemma trace_bind {A B} (m : Async A) (f : A → Async B) srv :
  trace (m ≫= f) srv =
    (trace m srv ++
     match run m srv with Return a => trace (f a) srv | Throw _ => [] end)%list.
Proof.
  cbv [run trace mbind async_bind bind fst snd].
  destruct (m srv) as [t [a | e]]; [|by rewrite app_nil_r]. by destruct (f a srv).
Qed.

Lemma trace_try_catch {A} (m : Async A) (h : Error → Async A) srv :
  trace (try_catch m h) srv =
    (trace m srv ++
     match run m srv with Return _ => [] | Throw e => trace (h e) srv end)%list.
Proof.
  cbv [run trace try_catch fst snd].
  destruct (m srv) as [t [a | e]]; [by rewrite app_nil_r|]. by destruct (h e srv).
Qed.

Lemma requests_app t t' : requests (t ++ t') = (requests t ++ requests t')%list.
Proof. apply omap_app. Qed.

(** The requests of the count: the count endpoint, then the listing it
    falls back to when the count endpoint fails. *)
Lemma requests_count params srv :
  requests (trace (ApiService.fetchSwiftCodesCount params) srv) =
    ApiService.count_request params ::
    match srv (ApiService.count_request params) with
    | Return _ => []
    | Throw _ => [ApiService.listing_request params]
    end.
Proof.
  js_unfold. fold (ApiService.count_request params).
  destruct (srv (ApiService.count_request params)); [done|].
  fold (ApiService.listing_request params).
  by destruct (srv (ApiService.listing_request params)).
Qed.

Lemma requests_listing params srv :
  requests (trace (fetchSwiftCodes params) srv) = [SwiftCodeApi.listing_request params].
Proof.
  unfold SwiftCodeApi.fetchSwiftCodes. js_unfold.
  fold (SwiftCodeApi.listing_request params).
  destruct (srv (SwiftCodeApi.listing_request params)) as [resp | e]; [|done].
  destruct (SwiftCodeApi.search params) as [s|]; [|done].
  destruct (JsString.falsy s); [done|].
  destruct (data resp); try done.
  by destruct (SwiftCodeApi.filter_codes _ _ _).
Qed.

(** X18: the requests of a load.  [loadSwiftCodes] asks for the count,
    then (inside [fetchSwiftCodesCount], when the count endpoint failed)
    for the listing of up to 1000 records, and last for the page:
    [skip], [limit] and the same two filters as the count.  The search
    term is sent in none of them: searching is done on the one page
    received, and the totals are those of the records not searched. *)
Theorem load_requests (st : State) (srv : Server) :
  requests (trace (loadSwiftCodes st) srv) =
    (ApiService.count_request (count_params st) ::
     match srv (ApiService.count_request (count_params st)) with
     | Return _ => []
     | Throw _ => [ApiService.listing_request (count_params st)]
     end ++
     [mkRequest GET "/api/v1/swift-code/"
        ([("skip", pretty ((currentPage st - 1) * 10)%Z); ("limit", "10")]
         ++ ApiService.queryParams (count_params st)) JNull])%list.
Proof.
  unfold HomePage.loadSwiftCodes. rewrite trace_bind. cbn [trace run ret fst snd].
  rewrite app_nil_l, trace_bind.
  destruct (load_count_run (setError None (setLoading true st)) srv) as [total Hcount].
  rewrite Hcount, requests_app.
  assert (Hreq : requests (trace (load_count (setError None (setLoading true st))) srv)
    = ApiService.count_request (count_params st) ::
      match srv (ApiService.count_request (count_params st)) with
      | Return _ => []
      | Throw _ => [ApiService.listing_request (count_params st)]
      end).
  { unfold HomePage.load_count.
    change (count_params (setError None (setLoading true st))) with (count_params st).
    rewrite trace_try_catch, run_bind, trace_bind, !requests_app, requests_count.
    destruct (run (ApiService.fetchSwiftCodesCount _) srv) as [[]|];
      cbn; by rewrite ?app_nil_r. }
  rewrite Hreq. clear Hreq Hcount. cbn [app]. f_equal. f_equal.
  rewrite trace_bind, trace_try_catch, trace_bind, !requests_app, requests_listing.
  change (list_params (setError None (setLoading true st))) with (list_params st).
  assert (Hq : SwiftCodeApi.listing_request (list_params st)
    = mkRequest GET "/api/v1/swift-code/"
        ([("skip", pretty ((currentPage st - 1) * 10)%Z); ("limit", "10")]
         ++ ApiService.queryParams (count_params st)) JNull).
  { unfold SwiftCodeApi.listing_request, SwiftCodeApi.queryParams,
      ApiService.queryParams, list_params, count_params. cbn.
    destruct (country_param st) as [c|]; [destruct (JsString.falsy c)|];
      by destruct (isHeadquarter_param st). }
  rewrite Hq.
  destruct (run (fetchSwiftCodes (list_params st)) srv) as [data | err] eqn:E.
  - rewrite !run_try_catch, !run_bind, E. rewrite run_bind. cbn. by destruct data.
  - rewrite !run_try_catch, !run_bind, E. rewrite trace_bind, run_bind. cbn. done.
Qed.

End HomePageProperties.

Lemma first_load_total_is_estimate_witness :
  ∃ st',
    Js.run (HomePage.loadSwiftCodes PageSamples.toLowerCase_ascii
              PageSamples.not_a_function PageSamples.first_render)
      PageSamples.count_500_page_of_two = Js.Return st'
    ∧ HomePage.swiftCodes st' = [PageSamples.deutsche_record; PageSamples.chase_record]
    ∧ HomePage.totalCount st' = Js.JNum 2.
Proof.
  apply (first_load_total_is_estimate PageSamples.toLowerCase_ascii
           PageSamples.not_a_function PageSamples.first_render
           PageSamples.count_500_page_of_two
           [PageSamples.deutsche_record; PageSamples.chase_record]).
  - reflexivity.
  - reflexivity.
  - discriminate.
Defined.

Lemma later_load_total_is_count_witness :
  ∃ st',
    Js.run (HomePage.loadSwiftCodes PageSamples.toLowerCase_ascii
              PageSamples.not_a_function PageSamples.second_page)
      PageSamples.count_500_page_of_two = Js.Return st'
    ∧ HomePage.totalCount st' = Js.JNum 500.
Proof.
  apply (later_load_total_is_count PageSamples.toLowerCase_ascii
           PageSamples.not_a_function PageSamples.second_page
           PageSamples.count_500_page_of_two).
  reflexivity.
Defined.
